(** * sun-angles: the input resolver [calculate_daylight]

    A shallow embedding of [src/sun_angles/calculate_daylight.py].

    The function resolves whichever of [day_of_year], [lat], [SHA_deg],
    [time_UTC] and [geometry] the caller supplied into the two arguments of
    the engine [SHA_deg_from_DOY_lat], and hands the engine's answer to the
    converter [daylight_from_SHA].  Python's [None] is [None] of [option];
    an exception is the [Raise] branch of [result]; every call of a
    collaborator and every attribute read is logged in a trace, so that
    "is never parsed", "is never read" and "is never invoked" are
    statements about that trace. *)

From Stdlib Require Import ZArith List String Ascii Bool Lia Reals Lra.
Import ListNotations.

Set Implicit Arguments.

Local Open Scope Z_scope.

(** ** Values *)

(** The exceptions the spec and the collaborators speak about.  [TypeError]
    and [ValueError] are Python's own (arithmetic on [None] or on a plain
    list, shapes that do not broadcast). *)
Inductive exn : Type :=
| MissingInput
| UnparsableTimestamp
| TypeError
| ValueError.

Inductive result (A : Type) : Type :=
| Ok (a : A)
| Raise (e : exn).

Arguments Ok {A} a.
Arguments Raise {A} e.

(** A scalar, a plain Python list, a [np.ndarray] or a [Raster].  Arrays
    and rasters are kept as the sequence of their elements. *)
Inductive pyobj (A : Type) : Type :=
| Scalar (a : A)
| PyList (xs : list A)
| Ndarray (xs : list A)
| Raster (xs : list A).

(** [datetime.datetime]; only the calendar date matters to [dayofyear]. *)
Record datetime : Type := mkdatetime {
  year : Z; month : Z; day : Z;
  hour : Z; minute : Z; second : Z
}.

(** One element of [time_UTC]: a string or a structured datetime. *)
Inductive timeval : Type :=
| TStr (s : string)
| TDatetime (d : datetime).

(** [time_UTC : Union[datetime, str, list, np.ndarray]]. *)
Inductive time_arg : Type :=
| TimeScalar (t : timeval)
| TimeList (ts : list timeval)
| TimeNdarray (ts : list timeval).

(** [SpatialGeometry]: an object with a [lat] attribute. *)
Record SpatialGeometry (num : Type) : Type := mkGeometry {
  geom_lat : pyobj num
}.

(** The five keyword arguments, each defaulting to [None]. *)
Record args (num : Type) : Type := mkArgs {
  day_of_year : option (pyobj Z);
  lat : option (pyobj num);
  SHA_deg : option (pyobj num);
  time_UTC : option time_arg;
  geometry : option (SpatialGeometry num)
}.


(** ** Calendar: [pd.Timestamp(val).dayofyear]

    The ordinal day of a date within its Gregorian year, 1 for 1 January.
    The range of years a [pd.Timestamp] can hold is not modelled. *)

Definition is_leap (y : Z) : bool :=
  ((y mod 4 =? 0) && negb (y mod 100 =? 0)) || (y mod 400 =? 0).

Definition days_before_month (m : Z) : Z :=
  nth (Z.to_nat (m - 1)) [0; 31; 59; 90; 120; 151; 181; 212; 243; 273; 304; 334] 0.

Definition dayofyear (d : datetime) : Z :=
  days_before_month (month d) + day d
  + (if is_leap (year d) && (2 <? month d) then 1 else 0).

(** ** Traces and the call monad *)

Inductive event (num : Type) : Type :=
| GetLat (g : SpatialGeometry num)                          (* geometry.lat *)
| SetLat (g : SpatialGeometry num) (v : pyobj num)          (* geometry.lat = v *)
| Parse (s : string)                                        (* parser.parse(s) *)
| Timestamp (d : datetime)                                  (* pd.Timestamp(d).dayofyear *)
| CallEngine (doy : option (pyobj Z)) (l : option (pyobj num))
| CallConverter (sha : pyobj num).

Arguments Parse {num} s.
Arguments Timestamp {num} d.

Definition M (num A : Type) : Type := (list (event num) * result A)%type.

Definition ret {num A} (a : A) : M num A := ([], Ok a).

Definition bind {num A B} (m : M num A) (f : A -> M num B) : M num B :=
  match m with
  | (t, Ok a) => let (t', r) := f a in (t ++ t', r)
  | (t, Raise e) => (t, Raise e)
  end.

Definition call {num A} (ev : event num) (r : result A) : M num A := ([ev], r).

Definition trace {num A} (m : M num A) : list (event num) := fst m.
Definition outcome {num A} (m : M num A) : result A := snd m.

Declare Scope call_scope.
Delimit Scope call_scope with call.
Notation "x <- m ;; k" := (bind m (fun x => k))
  (at level 61, m at next level, right associativity) : call_scope.
Open Scope call_scope.

Fixpoint mapM {num A B} (f : A -> M num B) (l : list A) : M num (list B) :=
  match l with
  | [] => ret []
  | x :: rest => y <- f x ;; ys <- mapM f rest ;; ret (y :: ys)
  end.

(** ** The resolver *)

Section Resolver.

Context {num : Type}.

(** The three imports the function calls: [dateutil.parser.parse], and
    the engine and converter modules of the package. *)
Variable parse : string -> result datetime.
Variable SHA_deg_from_DOY_lat :
  option (pyobj Z) -> option (pyobj num) -> result (pyobj num).
Variable daylight_from_SHA : pyobj num -> result (pyobj num).

(** The local function [to_doy] (lines 67-70). *)
Definition to_doy (val : timeval) : M num Z :=
  val <- match val with
         | TStr s => call (Parse s) (parse s)
         | TDatetime d => ret d
         end ;;
  call (Timestamp val) (Ok (dayofyear val)).

(** [calculate_daylight] (lines 59-87). *)
Definition calculate_daylight (a : args num) : M num (pyobj num) :=
  SHA_deg <- match SHA_deg a with
             | None =>
                 lat <- match lat a, geometry a with
                        | None, Some g => call (GetLat g) (Ok (Some (geom_lat g)))
                        | l, _ => ret l
                        end ;;
                 day_of_year <- match day_of_year a, time_UTC a with
                                | None, Some (TimeList ts)
                                | None, Some (TimeNdarray ts) =>
                                    ds <- mapM to_doy ts ;; ret (Some (Ndarray ds))
                                | None, Some (TimeScalar t) =>
                                    d <- to_doy t ;; ret (Some (Scalar d))
                                | d, _ => ret d
                                end ;;
                 let day_of_year := match day_of_year with
                                    | Some (PyList xs) => Some (Ndarray xs)
                                    | d => d
                                    end in
                 call (CallEngine day_of_year lat)
                      (SHA_deg_from_DOY_lat day_of_year lat)
             | Some s => ret s
             end ;;
  call (CallConverter SHA_deg) (daylight_from_SHA SHA_deg).

End Resolver.

(** ** A parser instance: ISO calendar dates

    [dateutil.parser.parse] is an external library and stays a parameter
    of the resolver.  [iso_parse] is one parser the parameter can be: it
    reads exactly the calendar dates [YYYY-MM-DD] (at midnight, as dateutil
    does when a string holds no time of day) and raises on everything
    else. *)

Definition digit (c : ascii) : option Z :=
  let n := Z.of_N (N_of_ascii c) in
  if (48 <=? n) && (n <=? 57) then Some (n - 48) else None.

Fixpoint digits (cs : list ascii) (acc : Z) : option Z :=
  match cs with
  | [] => Some acc
  | c :: rest =>
      match digit c with
      | Some d => digits rest (10 * acc + d)
      | None => None
      end
  end.

Definition days_in_month (y m : Z) : Z :=
  if m =? 2 then (if is_leap y then 29 else 28)
  else if (m =? 4) || (m =? 6) || (m =? 9) || (m =? 11) then 30
  else 31.

Definition iso_parse (s : string) : result datetime :=
  match list_ascii_of_string s with
  | [y1; y2; y3; y4; sep1; m1; m2; sep2; d1; d2] =>
      match digits [y1; y2; y3; y4] 0, digits [m1; m2] 0, digits [d1; d2] 0 with
      | Some y, Some m, Some d =>
          if Ascii.eqb sep1 "-" && Ascii.eqb sep2 "-"
             && (1 <=? y) && (1 <=? m) && (m <=? 12)
             && (1 <=? d) && (d <=? days_in_month y m)
          then Ok (mkdatetime y m d 0 0 0)
          else Raise UnparsableTimestamp
      | _, _, _ => Raise UnparsableTimestamp
      end
  | _ => Raise UnparsableTimestamp
  end.

(** ** The engine and the converter

    [calculate_daylight.py] imports [SHA_deg_from_DOY_lat] and
    [daylight_from_SHA] from sibling modules of the package.  Their
    bodies below follow sections 3, 4.1 and 4.2 of the spec, with Python's
    floats read as real numbers: rounding is not modelled. *)

Module Spec.

Local Open Scope R_scope.

(** Modelled from the spec: the conversions between degrees and radians
    that section 4.1 asks of the engine [SHA_deg_from_DOY_lat] ("correct
    conversion"). *)
Definition deg2rad (x : R) : R := x * PI / 180.

(** Modelled from the spec: the conversion back to degrees in section 4.1
    step 4 of the engine. *)
Definition rad2deg (x : R) : R := x * 180 / PI.

(** Modelled from the spec: the solar declination of the engine
    [SHA_deg_from_DOY_lat], section 4.1 step 1:
    23.45 x sin(360/365 x (day_of_year - 81)), in degrees. *)
Definition declination (d : R) : R :=
  23.45 * sin (deg2rad (360 / 365 * (d - 81))).

(** Modelled from the spec: section 4.1 step 2 of the engine,
    cos(H) = -tan(latitude) x tan(declination). *)
Definition cos_hour_angle (d l : R) : R :=
  - tan (deg2rad l) * tan (deg2rad (declination d)).

(** Modelled from the spec: section 4.1 step 3 of the engine, the clamp
    of cos(H) to [-1, 1]. *)
Definition clamp (x : R) : R := Rmax (-1) (Rmin 1 x).

(** Modelled from the spec: section 4.1 step 4 of the engine, the
    inverse cosine of the clamped value, in degrees. *)
Definition sha_deg_scalar (d l : R) : R :=
  rad2deg (acos (clamp (cos_hour_angle d l))).

(** Modelled from the spec: the shape invariant of section 3 for two
    sequences handed to the engine: they meet elementwise when their
    lengths agree or one of them has length one, and do not broadcast
    otherwise. *)
Definition zip_broadcast {A B C} (f : A -> B -> C)
    (xs : list A) (ys : list B) : result (list C) :=
  if (List.length xs =? List.length ys)%nat
  then Ok (map (fun p => f (fst p) (snd p)) (combine xs ys))
  else match xs, ys with
       | [x], _ => Ok (map (f x) ys)
       | _, [y] => Ok (map (fun x => f x y) xs)
       | _, _ => Raise ValueError
       end.

(** Modelled from the spec: the output of the engine has the container
    kind of its inputs (section 3, shape invariant). *)
Definition as_container {A} (wrap : list A -> pyobj A) (r : result (list A))
    : result (pyobj A) :=
  match r with
  | Ok xs => Ok (wrap xs)
  | Raise e => Raise e
  end.

(** Modelled from the spec: the shape invariant of section 3 (inputs
    broadcast, the output has the broadcast shape) for the containers
    the engine expects: a scalar meets anything, and a raster on either
    side makes the result a raster.  A plain list is not an elementwise
    container (section 4.3 step 4): Python arithmetic on it raises. *)
Definition broadcast {A B C} (f : A -> B -> C)
    (x : pyobj A) (y : pyobj B) : result (pyobj C) :=
  match x, y with
  | PyList _, _ | _, PyList _ => Raise TypeError
  | Scalar a, Scalar b => Ok (Scalar (f a b))
  | Scalar a, Ndarray bs => Ok (Ndarray (map (f a) bs))
  | Scalar a, Raster bs => Ok (Raster (map (f a) bs))
  | Ndarray xs, Scalar b => Ok (Ndarray (map (fun a => f a b) xs))
  | Raster xs, Scalar b => Ok (Raster (map (fun a => f a b) xs))
  | Ndarray xs, Ndarray ys => as_container (@Ndarray C) (zip_broadcast f xs ys)
  | Ndarray xs, Raster ys
  | Raster xs, Ndarray ys
  | Raster xs, Raster ys => as_container (@Raster C) (zip_broadcast f xs ys)
  end.

(** Modelled from the spec: the engine [SHA_deg_from_DOY_lat], contract
    [sha_deg(day_of_year, latitude)] of section 4.1, elementwise over
    containers.  The spec gives the engine no error of its own; on
    [None] the arithmetic of the formula is Python's, which raises
    [TypeError]. *)
Definition sha_deg (doy : option (pyobj Z)) (l : option (pyobj R))
    : result (pyobj R) :=
  match doy, l with
  | Some d, Some l => broadcast (fun d l => sha_deg_scalar (IZR d) l) d l
  | _, _ => Raise TypeError
  end.

(** Modelled from the spec: the formula of the converter
    [daylight_from_SHA], section 4.2: hours = (2 / 15) x SHA_deg. *)
Definition hours (sha : R) : R := 2 / 15 * sha.

(** Modelled from the spec: the converter [daylight_from_SHA], contract
    [daylight_hours(SHA_deg)] of section 4.2, elementwise over containers;
    on a plain list the product is Python's, which raises. *)
Definition daylight_hours (sha : pyobj R) : result (pyobj R) :=
  match sha with
  | Scalar x => Ok (Scalar (hours x))
  | Ndarray xs => Ok (Ndarray (map hours xs))
  | Raster xs => Ok (Raster (map hours xs))
  | PyList _ => Raise TypeError
  end.

End Spec.

(** ** Reading a run *)

(** The arguments of the engine calls of a run, in order. *)
Fixpoint engine_calls {num} (t : list (event num))
    : list (option (pyobj Z) * option (pyobj num)) :=
  match t with
  | [] => []
  | CallEngine d l :: rest => (d, l) :: engine_calls rest
  | _ :: rest => engine_calls rest
  end.

Definition is_parse {num} (ev : event num) : bool :=
  match ev with Parse _ | Timestamp _ => true | _ => false end.

Definition is_geometry_read {num} (ev : event num) : bool :=
  match ev with GetLat _ => true | _ => false end.

Definition is_geometry_write {num} (ev : event num) : bool :=
  match ev with SetLat _ _ => true | _ => false end.

Definition is_engine {num} (ev : event num) : bool :=
  match ev with CallEngine _ _ => true | _ => false end.

Definition is_converter {num} (ev : event num) : bool :=
  match ev with CallConverter _ => true | _ => false end.

(** The latitude the source leaves in [lat] after lines 62-63. *)
Definition resolved_lat {num} (a : args num) : option (pyobj num) :=
  match lat a, geometry a with
  | None, Some g => Some (geom_lat g)
  | l, _ => l
  end.

(** Lines 79-80: a plain list becomes an array, anything else stays. *)
Definition normalized {A} (d : option (pyobj A)) : option (pyobj A) :=
  match d with
  | Some (PyList xs) => Some (Ndarray xs)
  | d => d
  end.

(** Lines 66-76 on their own: the value left in [day_of_year] before the
    list check, with the parser calls made on the way. *)
Definition resolve_day_of_year {num} (parse : string -> result datetime)
    (a : args num) : M num (option (pyobj Z)) :=
  match day_of_year a, time_UTC a with
  | None, Some (TimeList ts)
  | None, Some (TimeNdarray ts) =>
      ds <- mapM (to_doy parse) ts ;; ret (Some (Ndarray ds))
  | None, Some (TimeScalar t) =>
      d <- to_doy parse t ;; ret (Some (Scalar d))
  | d, _ => ret d
  end.

(** The attribute reads of lines 62-63. *)
Definition lat_events {num} (a : args num) : list (event num) :=
  match lat a, geometry a with
  | None, Some g => [GetLat g]
  | _, _ => []
  end.

(** What parsing one element of [time_UTC] gives, without the trace: a
    string goes through the parser, a datetime is taken as it is, and the
    ordinal day of the date is read off. *)
Definition doy_of (parse : string -> result datetime) (v : timeval) : result Z :=
  match v with
  | TStr s =>
      match parse s with
      | Ok d => Ok (dayofyear d)
      | Raise e => Raise e
      end
  | TDatetime d => Ok (dayofyear d)
  end.

(** The parser reads [s] as the calendar date [y]-[m]-[d]. *)
Definition parses_to (parse : string -> result datetime)
    (s : string) (y m d : Z) : Prop :=
  exists dt, parse s = Ok dt /\ year dt = y /\ month dt = m /\ day dt = d.

(** The strings handed to [parser.parse] in a run, in order. *)
Fixpoint parsed_strings {num} (t : list (event num)) : list string :=
  match t with
  | [] => []
  | Parse s :: rest => s :: parsed_strings rest
  | _ :: rest => parsed_strings rest
  end.

(** The elements [to_doy] is applied to (lines 73-76): the members of a
    list or an array, or the single value. *)
Definition time_elements (t : time_arg) : list timeval :=
  match t with
  | TimeScalar v => [v]
  | TimeList vs | TimeNdarray vs => vs
  end.

(** The strings among them, in order. *)
Fixpoint strings_of (vs : list timeval) : list string :=
  match vs with
  | [] => []
  | TStr s :: rest => s :: strings_of rest
  | TDatetime _ :: rest => strings_of rest
  end.

(** A [day_of_year] that is a plain Python list. *)
Definition is_plain_list {A} (d : option (pyobj A)) : bool :=
  match d with
  | Some (PyList _) => true
  | _ => false
  end.

(** The dates a [datetime.datetime] can hold: its constructor refuses a
    month outside 1..12 and a day outside the month. *)
Definition valid_date (d : datetime) : bool :=
  (1 <=? month d) && (month d <=? 12)
  && (1 <=? day d) && (day d <=? days_in_month (year d) (month d)).


(** * Properties *)

Unset Implicit Arguments.

Example dayofyear_2025_06_21 : dayofyear (mkdatetime 2025 6 21 0 0 0) = 172.
Proof. reflexivity. Qed.

Example dayofyear_2024_12_31 : dayofyear (mkdatetime 2024 12 31 0 0 0) = 366.
Proof. reflexivity. Qed.

Example iso_parse_2025_06_21 :
  iso_parse "2025-06-21" = Ok (mkdatetime 2025 6 21 0 0 0).
Proof. reflexivity. Qed.

Example iso_parse_junk : iso_parse "not a date" = Raise UnparsableTimestamp.
Proof. reflexivity. Qed.

(** ** The call monad *)

Lemma bind_ok {num A B} (t : list (event num)) (a : A) (f : A -> M num B) :
  bind (t, Ok a) f = (t ++ trace (f a), outcome (f a)).
Proof. unfold bind, trace, outcome. destruct (f a). reflexivity. Qed.

Lemma bind_raise {num A B} (t : list (event num)) (e : exn) (f : A -> M num B) :
  bind (t, Raise e) f = (t, Raise e).
Proof. reflexivity. Qed.

Lemma bind_ret_l {num A B} (a : A) (f : A -> M num B) : bind (ret a) f = f a.
Proof. unfold ret. rewrite bind_ok. destruct (f a). reflexivity. Qed.

Lemma bind_ret_r {num A} (m : M num A) : bind m ret = m.
Proof.
  destruct m as [t [a|e]]; [|reflexivity].
  unfold bind, ret. rewrite app_nil_r. reflexivity.
Qed.

Lemma bind_assoc {num A B C} (m : M num A) (f : A -> M num B) (g : B -> M num C) :
  bind (bind m f) g = bind m (fun a => bind (f a) g).
Proof.
  destruct m as [t [a|e]]; [|reflexivity].
  unfold bind. destruct (f a) as [t' [b|e]]; [|reflexivity].
  destruct (g b) as [t'' r]. rewrite app_assoc. reflexivity.
Qed.

Lemma engine_calls_app {num} (t u : list (event num)) :
  engine_calls (t ++ u) = engine_calls t ++ engine_calls u.
Proof.
  induction t as [|ev t IH]; simpl; [reflexivity|].
  destruct ev; simpl; rewrite ?IH; reflexivity.
Qed.

Lemma parse_only_engine_calls {num} (t : list (event num)) :
  forallb is_parse t = true -> engine_calls t = [].
Proof.
  induction t as [|ev t IH]; simpl; [reflexivity|].
  destruct ev; simpl; try discriminate; exact IH.
Qed.

Lemma parse_only_filter {num} (p : event num -> bool) (t : list (event num)) :
  (forall ev, is_parse ev = true -> p ev = false) ->
  forallb is_parse t = true -> filter p t = [].
Proof.
  intros Hp. induction t as [|ev t IH]; simpl; [reflexivity|].
  intros H. apply andb_prop in H. destruct H as [H1 H2].
  rewrite (Hp ev H1). auto.
Qed.

(** ** [to_doy] and the comprehension over [time_UTC] *)

Section ResolverFacts.

Context {num : Type}.
Variable parse : string -> result datetime.
Variable engine : option (pyobj Z) -> option (pyobj num) -> result (pyobj num).
Variable converter : pyobj num -> result (pyobj num).

Lemma to_doy_run (v : timeval) :
  @to_doy num parse v =
  match v with
  | TStr s =>
      match parse s with
      | Ok d => ([Parse s; Timestamp d], Ok (dayofyear d))
      | Raise e => ([Parse s], Raise e)
      end
  | TDatetime d => ([Timestamp d], Ok (dayofyear d))
  end.
Proof.
  destruct v as [s|d]; unfold to_doy, call, ret, bind; simpl.
  - destruct (parse s); reflexivity.
  - reflexivity.
Qed.

Lemma to_doy_outcome (v : timeval) :
  outcome (@to_doy num parse v) = doy_of parse v.
Proof.
  rewrite to_doy_run. destruct v as [s|d]; simpl; [|reflexivity].
  destruct (parse s); reflexivity.
Qed.

Lemma to_doy_trace (v : timeval) :
  forallb is_parse (trace (@to_doy num parse v)) = true.
Proof.
  rewrite to_doy_run. destruct v as [s|d]; simpl; [|reflexivity].
  destruct (parse s); reflexivity.
Qed.

Lemma mapM_to_doy_trace (vs : list timeval) :
  forallb is_parse (trace (mapM (@to_doy num parse) vs)) = true.
Proof.
  induction vs as [|v vs IH]; [reflexivity|].
  pose proof (to_doy_trace v) as Hv.
  cbn [mapM].
  destruct (to_doy parse v) as [t [n|e]]; cbn [trace fst] in Hv.
  - rewrite bind_ok.
    destruct (mapM (to_doy parse) vs) as [t' [ns|e]]; cbn [trace fst] in IH.
    + rewrite bind_ok. cbn [trace fst ret]. rewrite app_nil_r.
      rewrite forallb_app, Hv, IH. reflexivity.
    + rewrite bind_raise. cbn [trace fst].
      rewrite forallb_app, Hv, IH. reflexivity.
  - rewrite bind_raise. exact Hv.
Qed.

Lemma mapM_to_doy_ok (vs : list timeval) (ns : list Z) :
  Forall2 (fun v n => doy_of parse v = Ok n) vs ns ->
  outcome (mapM (@to_doy num parse) vs) = Ok ns.
Proof.
  induction 1 as [|v n vs ns Hv _ IH]; simpl; [reflexivity|].
  rewrite <- to_doy_outcome in Hv.
  destruct (to_doy parse v) as [t r]; simpl in Hv; subst r.
  rewrite bind_ok. simpl.
  destruct (mapM (to_doy parse) vs) as [t' r']; simpl in IH; subst r'.
  reflexivity.
Qed.

Lemma mapM_to_doy_raise (pre post : list timeval) (v : timeval) (e : exn) :
  Forall (fun v => exists n, doy_of parse v = Ok n) pre ->
  doy_of parse v = Raise e ->
  outcome (mapM (@to_doy num parse) (pre ++ v :: post)) = Raise e.
Proof.
  intros Hpre Hv. induction Hpre as [|p pre [n Hp] _ IH]; simpl.
  - rewrite <- to_doy_outcome in Hv.
    destruct (to_doy parse v) as [t r]; simpl in Hv; subst r. reflexivity.
  - rewrite <- to_doy_outcome in Hp.
    destruct (to_doy parse p) as [t r]; simpl in Hp; subst r.
    rewrite bind_ok. simpl.
    destruct (mapM (to_doy parse) (pre ++ v :: post)) as [t' r'];
      simpl in IH; subst r'. reflexivity.
Qed.

(** ** The shape of a run *)

Lemma resolve_day_of_year_trace (a : args num) :
  forallb is_parse (trace (resolve_day_of_year parse a)) = true.
Proof.
  unfold resolve_day_of_year.
  destruct (day_of_year a) as [d|]; [reflexivity|].
  destruct (time_UTC a) as [[v|vs|vs]|]; try reflexivity.
  - pose proof (to_doy_trace v) as Hv.
    destruct (to_doy parse v) as [t [n|e]]; cbn [trace fst] in Hv.
    + rewrite bind_ok. cbn [trace fst ret]. rewrite app_nil_r. exact Hv.
    + exact Hv.
  - pose proof (mapM_to_doy_trace vs) as Hv.
    destruct (mapM (to_doy parse) vs) as [t [n|e]]; cbn [trace fst] in Hv.
    + rewrite bind_ok. cbn [trace fst ret]. rewrite app_nil_r. exact Hv.
    + exact Hv.
  - pose proof (mapM_to_doy_trace vs) as Hv.
    destruct (mapM (to_doy parse) vs) as [t [n|e]]; cbn [trace fst] in Hv.
    + rewrite bind_ok. cbn [trace fst ret]. rewrite app_nil_r. exact Hv.
    + exact Hv.
Qed.

Lemma resolve_day_of_year_supplied (a : args num) (d : pyobj Z) :
  day_of_year a = Some d -> resolve_day_of_year parse a = ret (Some d).
Proof. unfold resolve_day_of_year. intros ->. reflexivity. Qed.

Lemma resolve_day_of_year_scalar (a : args num) (v : timeval) (n : Z) :
  day_of_year a = None -> time_UTC a = Some (TimeScalar v) ->
  doy_of parse v = Ok n ->
  outcome (resolve_day_of_year parse a) = Ok (Some (Scalar n)).
Proof.
  unfold resolve_day_of_year. intros -> -> Hv.
  rewrite <- to_doy_outcome in Hv.
  destruct (to_doy parse v) as [t r]; simpl in Hv; subst r. reflexivity.
Qed.

Lemma resolve_day_of_year_sequence (a : args num) (vs : list timeval) (ns : list Z) :
  day_of_year a = None ->
  time_UTC a = Some (TimeList vs) \/ time_UTC a = Some (TimeNdarray vs) ->
  Forall2 (fun v n => doy_of parse v = Ok n) vs ns ->
  outcome (resolve_day_of_year parse a) = Ok (Some (Ndarray ns)).
Proof.
  unfold resolve_day_of_year. intros -> Ht Hvs.
  apply mapM_to_doy_ok in Hvs.
  destruct Ht as [-> | ->];
    destruct (mapM (to_doy parse) vs) as [t r]; simpl in Hvs; subst r;
    reflexivity.
Qed.

(** With [SHA_deg] absent a run is: the attribute read of lines 62-63,
    the parser calls of lines 66-76, and, unless one of those raised,
    one engine call followed, unless the engine raised, by one converter
    call. *)
Lemma calculate_daylight_absent_SHA (a : args num) :
  SHA_deg a = None ->
  calculate_daylight parse engine converter a =
  match resolve_day_of_year parse a with
  | (tp, Ok d) =>
      match engine (normalized d) (resolved_lat a) with
      | Ok s =>
          (lat_events a ++ tp
             ++ [CallEngine (normalized d) (resolved_lat a); CallConverter s],
           converter s)
      | Raise e =>
          (lat_events a ++ tp ++ [CallEngine (normalized d) (resolved_lat a)],
           Raise e)
      end
  | (tp, Raise e) => (lat_events a ++ tp, Raise e)
  end.
Proof.
  intros HS.
  assert (Hgen : forall (tl : list (event num)) (l : option (pyobj num)),
    (x <- (y <- (tl, Ok l) ;;
           d <- resolve_day_of_year parse a ;;
           call (CallEngine (normalized d) y) (engine (normalized d) y)) ;;
     call (CallConverter x) (converter x)) =
    match resolve_day_of_year parse a with
    | (tp, Ok d) =>
        match engine (normalized d) l with
        | Ok s => (tl ++ tp ++ [CallEngine (normalized d) l; CallConverter s],
                   converter s)
        | Raise e => (tl ++ tp ++ [CallEngine (normalized d) l], Raise e)
        end
    | (tp, Raise e) => (tl ++ tp, Raise e)
    end).
  { intros tl l.
    destruct (resolve_day_of_year parse a) as [tp [d|e]]; [|reflexivity].
    unfold bind, call.
    destruct (engine (normalized d) l) as [s|e]; [|reflexivity].
    rewrite <- !app_assoc. reflexivity. }
  unfold calculate_daylight. rewrite HS.
  unfold resolved_lat, lat_events.
  destruct (lat a) as [l|]; [|destruct (geometry a) as [g|]];
    apply Hgen.
Qed.

End ResolverFacts.

(** ** Resolution of the inputs *)

Section ResolverClaims.

Context {num : Type}.
Variable parse : string -> result datetime.
Variable engine : option (pyobj Z) -> option (pyobj num) -> result (pyobj num).
Variable converter : pyobj num -> result (pyobj num).

Lemma lat_events_filter (p : event num -> bool) (a : args num) :
  (forall g, p (GetLat g) = false) -> filter p (lat_events a) = [].
Proof.
  intros Hp. unfold lat_events.
  destruct (lat a); [reflexivity|].
  destruct (geometry a) as [g|]; [|reflexivity].
  simpl. rewrite Hp. reflexivity.
Qed.

Lemma lat_events_engine_calls (a : args num) : engine_calls (lat_events a) = [].
Proof.
  unfold lat_events. destruct (lat a); [reflexivity|].
  destruct (geometry a); reflexivity.
Qed.

(** The engine calls of a run without [SHA_deg]: none when the parser
    raised, one otherwise. *)
Lemma engine_calls_absent_SHA (a : args num) :
  SHA_deg a = None ->
  engine_calls (trace (calculate_daylight parse engine converter a)) =
  match outcome (resolve_day_of_year parse a) with
  | Ok d => [(normalized d, resolved_lat a)]
  | Raise _ => []
  end.
Proof.
  intros HS. rewrite (calculate_daylight_absent_SHA parse engine converter a HS).
  pose proof (resolve_day_of_year_trace parse a) as Hp.
  destruct (resolve_day_of_year parse a) as [tp [d|e]];
    cbn [trace outcome fst snd] in *.
  - apply parse_only_engine_calls in Hp.
    destruct (engine (normalized d) (resolved_lat a));
      cbn [trace fst]; rewrite !engine_calls_app, lat_events_engine_calls, Hp;
      reflexivity.
  - apply parse_only_engine_calls in Hp.
    rewrite engine_calls_app, lat_events_engine_calls, Hp. reflexivity.
Qed.

(** A predicate that holds of no attribute read and of no parser call
    selects, from a run without [SHA_deg], only engine and converter
    calls. *)
Lemma filter_absent_SHA (p : event num -> bool) (a : args num) :
  SHA_deg a = None ->
  (forall g, p (GetLat g) = false) ->
  (forall ev, is_parse ev = true -> p ev = false) ->
  (forall d l, p (CallEngine d l) = false) ->
  (forall s, p (CallConverter s) = false) ->
  filter p (trace (calculate_daylight parse engine converter a)) = [].
Proof.
  intros HS Hg Hp He Hc.
  rewrite (calculate_daylight_absent_SHA parse engine converter a HS).
  pose proof (resolve_day_of_year_trace parse a) as Ht.
  destruct (resolve_day_of_year parse a) as [tp [d|e]];
    cbn [trace outcome fst snd] in *;
    apply (parse_only_filter p _ Hp) in Ht.
  - destruct (engine (normalized d) (resolved_lat a));
      cbn [trace fst]; rewrite !filter_app, (lat_events_filter p a Hg), Ht;
      simpl; rewrite ?He, ?Hc; reflexivity.
  - rewrite filter_app, (lat_events_filter p a Hg), Ht. reflexivity.
Qed.

(** The geometry reads of a run without [SHA_deg] are those of lines
    62-63. *)
Lemma geometry_reads_absent_SHA (a : args num) :
  SHA_deg a = None ->
  filter is_geometry_read (trace (calculate_daylight parse engine converter a))
  = lat_events a.
Proof.
  intros HS.
  rewrite (calculate_daylight_absent_SHA parse engine converter a HS).
  pose proof (resolve_day_of_year_trace parse a) as Ht.
  assert (Hl : filter is_geometry_read (lat_events a) = lat_events a).
  { unfold lat_events. destruct (lat a); [reflexivity|].
    destruct (geometry a); reflexivity. }
  assert (Hp : forall ev : event num,
             is_parse ev = true -> is_geometry_read ev = false).
  { intros [ | | | | | ]; simpl; congruence. }
  destruct (resolve_day_of_year parse a) as [tp [d|e]];
    cbn [trace outcome fst snd] in *;
    apply (parse_only_filter _ _ Hp) in Ht.
  - destruct (engine (normalized d) (resolved_lat a));
      cbn [trace fst]; rewrite !filter_app, Hl, Ht; simpl;
      rewrite app_nil_r; reflexivity.
  - rewrite filter_app, Hl, Ht, app_nil_r. reflexivity.
Qed.

(** With [SHA_deg] supplied the run is the converter call alone. *)
Lemma calculate_daylight_supplied_SHA (a : args num) (x : pyobj num) :
  SHA_deg a = Some x ->
  calculate_daylight parse engine converter a = ([CallConverter x], converter x).
Proof. unfold calculate_daylight. intros ->. reflexivity. Qed.

(** The outcome of a run without [SHA_deg]. *)
Lemma outcome_absent_SHA (a : args num) :
  SHA_deg a = None ->
  outcome (calculate_daylight parse engine converter a) =
  match outcome (resolve_day_of_year parse a) with
  | Ok d =>
      match engine (normalized d) (resolved_lat a) with
      | Ok s => converter s
      | Raise e => Raise e
      end
  | Raise e => Raise e
  end.
Proof.
  intros HS. rewrite (calculate_daylight_absent_SHA parse engine converter a HS).
  destruct (resolve_day_of_year parse a) as [tp [d|e]];
    cbn [outcome snd]; [|reflexivity].
  destruct (engine (normalized d) (resolved_lat a)); reflexivity.
Qed.



(** With [day_of_year] supplied a run holds no parser call. *)
Lemma no_parse_when_day_of_year_supplied
    (d : pyobj Z) (l s : option (pyobj num)) (t : option time_arg)
    (g : option (SpatialGeometry num)) :
  filter is_parse
    (trace (calculate_daylight parse engine converter (mkArgs (Some d) l s t g)))
  = [].
Proof.
  destruct s as [x|]; [reflexivity|].
  rewrite calculate_daylight_absent_SHA by reflexivity.
  unfold resolve_day_of_year, lat_events, ret.
  cbn [day_of_year lat geometry].
  destruct (engine _ _); destruct l; try destruct g; reflexivity.
Qed.

End ResolverClaims.

Section InputResolver.

Context {num : Type}.
Variable parse : string -> result datetime.
Variable engine : option (pyobj Z) -> option (pyobj num) -> result (pyobj num).
Variable converter : pyobj num -> result (pyobj num).

Local Notation "'run' a" := (calculate_daylight parse engine converter a)
  (at level 10, a at level 9, only parsing).

(** C5: with [SHA_deg] absent a supplied [lat] wins over [geometry]:
    [geometry.lat] is read only when [lat] is [None] and [geometry] is
    not, and then the engine's latitude is [geometry.lat]; with [lat]
    supplied every engine call gets that value and nothing is read.  The
    engine is called once unless the parser raised, and no run writes to
    the geometry. *)
Theorem lat_precedence_over_geometry (a : args num) :
  SHA_deg a = None ->
  let t := trace (run a) in
  (forall v, lat a = Some v ->
     filter is_geometry_read t = [] /\
     forall d l, In (d, l) (engine_calls t) -> l = Some v)
  /\ (lat a = None -> geometry a = None -> filter is_geometry_read t = [])
  /\ (forall g, lat a = None -> geometry a = Some g ->
     filter is_geometry_read t = [GetLat g] /\
     forall d l, In (d, l) (engine_calls t) -> l = Some (geom_lat g))
  /\ List.length (engine_calls t)
     = match outcome (resolve_day_of_year parse a) with
       | Ok _ => 1%nat
       | Raise _ => 0%nat
       end
  /\ filter is_geometry_write t = [].
Proof.
  intros HS t. subst t.
  rewrite (geometry_reads_absent_SHA parse engine converter a HS).
  rewrite (engine_calls_absent_SHA parse engine converter a HS).
  unfold lat_events, resolved_lat.
  split; [|split; [|split; [|split]]].
  - intros v Hl. rewrite Hl. split; [reflexivity|].
    destruct (outcome (resolve_day_of_year parse a)); simpl;
      intros d l Hin; intuition congruence.
  - intros Hl Hg. rewrite Hl, Hg. reflexivity.
  - intros g Hl Hg. rewrite Hl, Hg. split; [reflexivity|].
    destruct (outcome (resolve_day_of_year parse a)); simpl;
      intros d l Hin; intuition congruence.
  - destruct (outcome (resolve_day_of_year parse a)); reflexivity.
  - apply filter_absent_SHA; try assumption; try reflexivity.
    intros [ | | | | | ]; simpl; congruence.
Qed.

(** C6: a [day_of_year] supplied as a plain list reaches the engine as
    the array of the same elements; a scalar, an array or a raster
    reaches it unchanged. *)
Theorem day_of_year_list_normalized
    (l : option (pyobj num)) (t : option time_arg)
    (g : option (SpatialGeometry num)) :
  let calls d := engine_calls (trace (run (mkArgs (Some d) l None t g))) in
  let latitude := resolved_lat (mkArgs None l None t g) in
  (forall xs, calls (PyList xs) = [(Some (Ndarray xs), latitude)])
  /\ (forall n, calls (Scalar n) = [(Some (Scalar n), latitude)])
  /\ (forall xs, calls (Ndarray xs) = [(Some (Ndarray xs), latitude)])
  /\ (forall xs, calls (Raster xs) = [(Some (Raster xs), latitude)]).
Proof.
  cbv zeta.
  repeat split; intros;
    rewrite engine_calls_absent_SHA by reflexivity; reflexivity.
Qed.

(** C10: with [day_of_year] supplied, two calls that differ only in
    [time_UTC] are the same run, trace and outcome, and that run holds
    no parser call: a [time_UTC] the parser would reject raises
    nothing. *)
Theorem time_UTC_ignored_when_day_of_year_supplied
    (d : pyobj Z) (l s : option (pyobj num)) (t1 t2 : option time_arg)
    (g : option (SpatialGeometry num)) :
  run (mkArgs (Some d) l s t1 g) = run (mkArgs (Some d) l s t2 g)
  /\ filter is_parse (trace (run (mkArgs (Some d) l s t1 g))) = [].
Proof.
  split; [|apply no_parse_when_day_of_year_supplied].
  destruct s as [x|]; [reflexivity|].
  rewrite !calculate_daylight_absent_SHA by reflexivity. reflexivity.
Qed.

(** C3: with [SHA_deg] and [day_of_year] absent, the engine's
    day-of-year comes from [time_UTC]: a string goes through the parser
    and a datetime is taken as it is, the ordinal day of the date is
    read off; a single value gives a scalar, a list or an array gives
    the array of the elementwise values.  A supplied [day_of_year] wins
    over [time_UTC], which is then not parsed. *)
Theorem day_of_year_derived_from_time_UTC
    (l : option (pyobj num)) (g : option (SpatialGeometry num)) :
  let calls d t := engine_calls (trace (run (mkArgs d l None t g))) in
  let latitude := resolved_lat (mkArgs None l None None g) in
  (forall s dt, parse s = Ok dt -> doy_of parse (TStr s) = Ok (dayofyear dt))
  /\ (forall dt, doy_of parse (TDatetime dt) = Ok (dayofyear dt))
  /\ (forall v n, doy_of parse v = Ok n ->
      calls None (Some (TimeScalar v)) = [(Some (Scalar n), latitude)])
  /\ (forall vs ns, Forall2 (fun v n => doy_of parse v = Ok n) vs ns ->
      calls None (Some (TimeList vs)) = [(Some (Ndarray ns), latitude)]
      /\ calls None (Some (TimeNdarray vs)) = [(Some (Ndarray ns), latitude)])
  /\ (forall d t,
      calls (Some d) t = [(normalized (Some d), latitude)]
      /\ filter is_parse (trace (run (mkArgs (Some d) l None t g))) = []).
Proof.
  cbv zeta. split; [|split; [|split; [|split]]].
  - intros s dt Hs. simpl. rewrite Hs. reflexivity.
  - reflexivity.
  - intros v n Hv. rewrite engine_calls_absent_SHA by reflexivity.
    erewrite resolve_day_of_year_scalar by (try reflexivity; exact Hv).
    reflexivity.
  - intros vs ns Hvs. split; rewrite engine_calls_absent_SHA by reflexivity.
    + erewrite resolve_day_of_year_sequence
        by first [reflexivity | left; reflexivity | exact Hvs].
      reflexivity.
    + erewrite resolve_day_of_year_sequence
        by first [reflexivity | right; reflexivity | exact Hvs].
      reflexivity.
  - intros d t. split.
    + rewrite engine_calls_absent_SHA by reflexivity. reflexivity.
    + apply no_parse_when_day_of_year_supplied.
Qed.

(** C7: with [SHA_deg] and [day_of_year] absent, the error the parser
    raises on a [time_UTC] string is the outcome of the call, as it
    was raised; neither the engine nor the converter runs, so no
    daylight value comes back.  The same holds for a string inside a
    list or an array whose earlier elements parse. *)
Theorem unparsable_timestamp_propagates
    (l : option (pyobj num)) (g : option (SpatialGeometry num))
    (s : string) (e : exn) :
  parse s = Raise e ->
  forall t : time_arg,
    t = TimeScalar (TStr s)
    \/ (exists pre post,
          Forall (fun v => exists n, doy_of parse v = Ok n) pre
          /\ (t = TimeList (pre ++ TStr s :: post)
              \/ t = TimeNdarray (pre ++ TStr s :: post))) ->
    let m := run (mkArgs None l None (Some t) g) in
    outcome m = Raise e
    /\ filter is_engine (trace m) = []
    /\ filter is_converter (trace m) = [].
Proof.
  intros Hs t Ht. cbv zeta.
  set (a := mkArgs None l None (Some t) g).
  assert (Hr : outcome (resolve_day_of_year parse a) = Raise e).
  { assert (Hd : doy_of parse (TStr s) = Raise e) by (simpl; rewrite Hs; reflexivity).
    unfold resolve_day_of_year, a. cbn [day_of_year time_UTC].
    destruct Ht as [-> | (pre & post & Hpre & [-> | ->])].
    - rewrite <- (to_doy_outcome (num:=num)) in Hd.
      destruct (to_doy parse (TStr s)) as [tp r]; simpl in Hd; subst r.
      reflexivity.
    - pose proof (@mapM_to_doy_raise num parse pre post (TStr s) e Hpre Hd) as Hm.
      destruct (mapM (to_doy parse) (pre ++ TStr s :: post)) as [tp r];
        simpl in Hm; subst r. reflexivity.
    - pose proof (@mapM_to_doy_raise num parse pre post (TStr s) e Hpre Hd) as Hm.
      destruct (mapM (to_doy parse) (pre ++ TStr s :: post)) as [tp r];
        simpl in Hm; subst r. reflexivity. }
  assert (HS : SHA_deg a = None) by reflexivity.
  split; [|split].
  - rewrite (outcome_absent_SHA parse engine converter a HS), Hr. reflexivity.
  - pose proof (engine_calls_absent_SHA parse engine converter a HS) as Hc.
    rewrite Hr in Hc.
    induction (trace (run a)) as [|ev tr IH]; [reflexivity|].
    destruct ev; simpl in *; try discriminate; auto.
  - rewrite (calculate_daylight_absent_SHA parse engine converter a HS).
    pose proof (resolve_day_of_year_trace parse a) as Hp.
    destruct (resolve_day_of_year parse a) as [tp [d|e']];
      cbn [trace outcome fst snd] in *; [discriminate|].
    rewrite filter_app, lat_events_filter by reflexivity.
    apply parse_only_filter; [|exact Hp].
    intros [ | | | | | ]; simpl; congruence.
Qed.

(** C4: when the parser reads '2025-06-21' as 21 June 2025, the call
    with that [time_UTC] and a latitude and the call with
    [day_of_year=172] and the same latitude invoke the engine with the
    same arguments, day 172 and that latitude, and have the same
    outcome. *)
Theorem time_UTC_2025_06_21_is_day_172 (latitude : pyobj num) :
  parses_to parse "2025-06-21" 2025 6 21 ->
  let by_time :=
    run (mkArgs None (Some latitude) None
           (Some (TimeScalar (TStr "2025-06-21"))) None) in
  let by_day :=
    run (mkArgs (Some (Scalar 172)) (Some latitude) None None None) in
  outcome by_time = outcome by_day
  /\ engine_calls (trace by_time) = [(Some (Scalar 172), Some latitude)]
  /\ engine_calls (trace by_day) = [(Some (Scalar 172), Some latitude)].
Proof.
  intros (dt & Hs & Hy & Hm & Hd). cbv zeta.
  assert (Hv : doy_of parse (TStr "2025-06-21") = Ok 172).
  { simpl. rewrite Hs. unfold dayofyear. rewrite Hy, Hm, Hd. reflexivity. }
  split; [|split].
  - rewrite !outcome_absent_SHA by reflexivity.
    erewrite resolve_day_of_year_scalar by (try reflexivity; exact Hv).
    reflexivity.
  - rewrite engine_calls_absent_SHA by reflexivity.
    erewrite resolve_day_of_year_scalar by (try reflexivity; exact Hv).
    reflexivity.
  - rewrite engine_calls_absent_SHA by reflexivity. reflexivity.
Qed.

End InputResolver.

(** ** The modelled engine and converter *)





Lemma rad2deg_bounds (x : R) :
  (0 <= x <= PI)%R -> (0 <= Spec.rad2deg x <= 180)%R.
Proof.
  intros [H0 H1]. unfold Spec.rad2deg.
  pose proof PI_RGT_0 as Hpi.
  split.
  - apply Rmult_le_pos; [lra|]. left. apply Rinv_0_lt_compat. exact Hpi.
  - apply (Rmult_le_reg_r PI); [exact Hpi|].
    unfold Rdiv. rewrite Rmult_assoc, Rinv_l by lra. lra.
Qed.

Lemma clamp_bounds (x : R) : (-1 <= Spec.clamp x <= 1)%R.
Proof.
  unfold Spec.clamp. split.
  - apply Rmax_l.
  - apply Rmax_lub; [lra|apply Rmin_l].
Qed.

Lemma sha_deg_scalar_bounds (d l : R) :
  (0 <= Spec.sha_deg_scalar d l <= 180)%R.
Proof. unfold Spec.sha_deg_scalar. apply rad2deg_bounds, acos_bound. Qed.

(** Section 4.1 step 3: a cosine above 1 is polar night, a cosine below -1
    is polar day. *)
Lemma polar_night (d l : R) :
  (1 <= Spec.cos_hour_angle d l)%R -> Spec.sha_deg_scalar d l = 0%R.
Proof.
  intros H. unfold Spec.sha_deg_scalar, Spec.clamp.
  rewrite Rmin_left by exact H. rewrite Rmax_right by lra.
  rewrite acos_1. unfold Spec.rad2deg. lra.
Qed.

Lemma polar_day (d l : R) :
  (Spec.cos_hour_angle d l <= -1)%R -> Spec.sha_deg_scalar d l = 180%R.
Proof.
  intros H. unfold Spec.sha_deg_scalar, Spec.clamp.
  rewrite Rmin_right by lra. rewrite Rmax_left by exact H.
  replace (-1)%R with (- (1))%R by lra.
  rewrite acos_opp, acos_1. unfold Spec.rad2deg.
  pose proof PI_RGT_0. field. lra.
Qed.

(** C2: with [SHA_deg] supplied as [x], whatever the other four arguments
    are, the run is the single converter call on [x] and its outcome is
    the converter's: no parser call, no geometry read, no engine call.
    The modelled converter gives (2/15) * x, elementwise on an array or a
    raster. *)
Theorem SHA_deg_supplied_short_circuit :
  (forall (num : Type) (parse : string -> result datetime)
          (engine : option (pyobj Z) -> option (pyobj num) -> result (pyobj num))
          (converter : pyobj num -> result (pyobj num))
          (x : pyobj num) d l t g,
      calculate_daylight parse engine converter (mkArgs d l (Some x) t g)
      = ([CallConverter x], converter x))
  /\ (forall r : R, Spec.daylight_hours (Scalar r) = Ok (Scalar (2 / 15 * r)%R))
  /\ (forall rs : list R,
        Spec.daylight_hours (Ndarray rs)
        = Ok (Ndarray (map (fun r => (2 / 15 * r)%R) rs)))
  /\ (forall rs : list R,
        Spec.daylight_hours (Raster rs)
        = Ok (Raster (map (fun r => (2 / 15 * r)%R) rs))).
Proof. repeat split. Qed.

(** C9: for a day of year in [1, 366] and a latitude in [-66, 66] the
    call [calculate_daylight(day_of_year=d, lat=L)] returns
    [daylight_hours(sha_deg(d, L))], the clamped cosine lies in [-1, 1],
    the sunrise hour angle in [0, 180] and the result in [0, 24]. *)
Theorem daylight_within_0_24
    (parse : string -> result datetime) (d : Z) (L : R) :
  1 <= d <= 366 -> (-66 <= L <= 66)%R ->
  exists h : R,
    outcome (calculate_daylight parse Spec.sha_deg Spec.daylight_hours
               (mkArgs (Some (Scalar d)) (Some (Scalar L)) None None None))
    = Ok (Scalar h)
    /\ h = Spec.hours (Spec.sha_deg_scalar (IZR d) L)
    /\ (-1 <= Spec.clamp (Spec.cos_hour_angle (IZR d) L) <= 1)%R
    /\ (0 <= Spec.sha_deg_scalar (IZR d) L <= 180)%R
    /\ (0 <= h <= 24)%R.
Proof.
  intros _ _. exists (Spec.hours (Spec.sha_deg_scalar (IZR d) L)).
  pose proof (sha_deg_scalar_bounds (IZR d) L) as Hb.
  repeat split; try apply clamp_bounds; try apply Hb;
    unfold Spec.hours; lra.
Qed.

(** C8: when the parser reads the two strings as 21 June 2025 and
    21 December 2025, then for every scalar latitude [L] the call on the
    list of the two returns a 2-element array whose first element is what
    the call on '2025-06-21' returns and whose second element is what the
    call on '2025-12-21' returns. *)
Theorem vectorized_matches_scalar_calls
    (parse : string -> result datetime) (L : R) :
  parses_to parse "2025-06-21" 2025 6 21 ->
  parses_to parse "2025-12-21" 2025 12 21 ->
  let daylight t :=
    outcome (calculate_daylight parse Spec.sha_deg Spec.daylight_hours
               (mkArgs None (Some (Scalar L)) None (Some t) None)) in
  exists h1 h2 : R,
    daylight (TimeList [TStr "2025-06-21"; TStr "2025-12-21"]) = Ok (Ndarray [h1; h2])
    /\ daylight (TimeScalar (TStr "2025-06-21")) = Ok (Scalar h1)
    /\ daylight (TimeScalar (TStr "2025-12-21")) = Ok (Scalar h2).
Proof.
  intros (dt1 & Hs1 & Hy1 & Hm1 & Hd1) (dt2 & Hs2 & Hy2 & Hm2 & Hd2). cbv zeta.
  assert (Hv1 : doy_of parse (TStr "2025-06-21") = Ok 172).
  { simpl. rewrite Hs1. unfold dayofyear. rewrite Hy1, Hm1, Hd1. reflexivity. }
  assert (Hv2 : doy_of parse (TStr "2025-12-21") = Ok 355).
  { simpl. rewrite Hs2. unfold dayofyear. rewrite Hy2, Hm2, Hd2. reflexivity. }
  exists (Spec.hours (Spec.sha_deg_scalar 172 L)),
         (Spec.hours (Spec.sha_deg_scalar 355 L)).
  split; [|split]; rewrite outcome_absent_SHA by reflexivity.
  - erewrite resolve_day_of_year_sequence
      by first [reflexivity | left; reflexivity
               | exact (Forall2_cons _ _ Hv1 (Forall2_cons _ _ Hv2 (Forall2_nil _)))].
    reflexivity.
  - erewrite resolve_day_of_year_scalar by first [reflexivity | exact Hv1].
    reflexivity.
  - erewrite resolve_day_of_year_scalar by first [reflexivity | exact Hv2].
    reflexivity.
Qed.

Example SHA_deg_100 :
  calculate_daylight iso_parse Spec.sha_deg Spec.daylight_hours
    (mkArgs None None (Some (Scalar 100%R)) None None)
  = ([CallConverter (Scalar 100%R)], Ok (Scalar (2 / 15 * 100)%R)).
Proof. reflexivity. Qed.

Example SHA_deg_100_unparsable_time :
  calculate_daylight iso_parse Spec.sha_deg Spec.daylight_hours
    (mkArgs (Some (PyList [1; 2])) None (Some (Scalar 100%R))
            (Some (TimeScalar (TStr "not a date")))
            (Some (mkGeometry (Scalar 34%R))))
  = ([CallConverter (Scalar 100%R)], Ok (Scalar (2 / 15 * 100)%R)).
Proof. reflexivity. Qed.

Example june_and_december_trace :
  trace (calculate_daylight iso_parse Spec.sha_deg Spec.daylight_hours
           (mkArgs None None None
                   (Some (TimeList [TStr "2025-06-21"; TStr "2025-12-21"]))
                   (Some (mkGeometry (Scalar 34%R)))))
  = [GetLat (mkGeometry (Scalar 34%R));
     Parse "2025-06-21"; Timestamp (mkdatetime 2025 6 21 0 0 0);
     Parse "2025-12-21"; Timestamp (mkdatetime 2025 12 21 0 0 0);
     CallEngine (Some (Ndarray [172; 355])) (Some (Scalar 34%R));
     CallConverter (Ndarray [Spec.sha_deg_scalar 172 34; Spec.sha_deg_scalar 355 34])].
Proof. reflexivity. Qed.


(** ** Instances *)

Lemma day_of_year_derived_from_time_UTC_witness :
  let vs := [TStr "2025-06-21"; TDatetime (mkdatetime 2024 12 31 23 59 59)] in
  Forall2 (fun v n => doy_of iso_parse v = Ok n) vs [172; 366]
  /\ engine_calls
       (trace (calculate_daylight iso_parse Spec.sha_deg Spec.daylight_hours
                 (mkArgs None (Some (Scalar 34%R)) None (Some (TimeNdarray vs)) None)))
     = [(Some (Ndarray [172; 366]), Some (Scalar 34%R))].
Proof.
  assert (H : Forall2 (fun v n => doy_of iso_parse v = Ok n)
                [TStr "2025-06-21"; TDatetime (mkdatetime 2024 12 31 23 59 59)]
                [172; 366]).
  { repeat constructor. }
  split; [exact H|].
  pose proof (day_of_year_derived_from_time_UTC
                iso_parse Spec.sha_deg Spec.daylight_hours
                (Some (Scalar 34%R)) None) as (_ & _ & _ & H4 & _).
  apply (H4 _ _ H).
Defined.

Lemma lat_precedence_over_geometry_witness :
  let g := mkGeometry (Scalar 34%R) in
  let a := mkArgs (Some (Scalar 172)) None None None (Some g) in
  SHA_deg a = None
  /\ filter is_geometry_read
       (trace (calculate_daylight iso_parse Spec.sha_deg Spec.daylight_hours a))
     = [GetLat g]
  /\ forall d l,
       In (d, l) (engine_calls
                    (trace (calculate_daylight iso_parse Spec.sha_deg
                              Spec.daylight_hours a))) ->
       l = Some (Scalar 34%R).
Proof.
  cbv zeta. split; [reflexivity|].
  pose proof (lat_precedence_over_geometry
                iso_parse Spec.sha_deg Spec.daylight_hours
                (mkArgs (Some (Scalar 172)) None None None
                        (Some (mkGeometry (Scalar 34%R))))
                eq_refl) as (_ & _ & H3 & _).
  apply (H3 _ eq_refl eq_refl).
Defined.

Lemma unparsable_timestamp_propagates_witness :
  iso_parse "2025-13-45" = Raise UnparsableTimestamp
  /\ outcome (calculate_daylight iso_parse Spec.sha_deg Spec.daylight_hours
                (mkArgs None (Some (Scalar 34%R)) None
                        (Some (TimeList [TStr "2025-06-21"; TStr "2025-13-45"]))
                        None))
     = Raise UnparsableTimestamp.
Proof.
  split; [reflexivity|].
  apply (@unparsable_timestamp_propagates R
           iso_parse Spec.sha_deg Spec.daylight_hours
           (Some (Scalar 34%R)) None "2025-13-45"%string UnparsableTimestamp
           eq_refl).
  right. exists [TStr "2025-06-21"], [].
  split; [|left; reflexivity].
  constructor; [|constructor]. exists 172. reflexivity.
Defined.

Lemma time_UTC_2025_06_21_is_day_172_witness :
  parses_to iso_parse "2025-06-21" 2025 6 21
  /\ outcome (calculate_daylight iso_parse Spec.sha_deg Spec.daylight_hours
                (mkArgs None (Some (Scalar 34%R)) None
                        (Some (TimeScalar (TStr "2025-06-21"))) None))
     = outcome (calculate_daylight iso_parse Spec.sha_deg Spec.daylight_hours
                  (mkArgs (Some (Scalar 172)) (Some (Scalar 34%R)) None None None)).
Proof.
  assert (H : parses_to iso_parse "2025-06-21" 2025 6 21).
  { exists (mkdatetime 2025 6 21 0 0 0). repeat split. }
  split; [exact H|].
  apply (time_UTC_2025_06_21_is_day_172
           iso_parse Spec.sha_deg Spec.daylight_hours (Scalar 34%R) H).
Defined.

Lemma daylight_within_0_24_witness :
  1 <= 172 <= 366 /\ (-66 <= 34 <= 66)%R
  /\ exists h : R,
       outcome (calculate_daylight iso_parse Spec.sha_deg Spec.daylight_hours
                  (mkArgs (Some (Scalar 172)) (Some (Scalar 34%R)) None None None))
       = Ok (Scalar h)
       /\ (0 <= h <= 24)%R.
Proof.
  assert (Hd : 1 <= 172 <= 366) by lia.
  assert (Hl : (-66 <= 34 <= 66)%R) by lra.
  split; [exact Hd|]. split; [exact Hl|].
  destruct (daylight_within_0_24 iso_parse 172 34 Hd Hl)
    as (h & H1 & _ & _ & _ & H2).
  exists h. split; assumption.
Defined.

Lemma vectorized_matches_scalar_calls_witness :
  parses_to iso_parse "2025-06-21" 2025 6 21
  /\ parses_to iso_parse "2025-12-21" 2025 12 21
  /\ exists h1 h2 : R,
       outcome (calculate_daylight iso_parse Spec.sha_deg Spec.daylight_hours
                  (mkArgs None (Some (Scalar 34%R)) None
                          (Some (TimeList [TStr "2025-06-21"; TStr "2025-12-21"]))
                          None))
       = Ok (Ndarray [h1; h2])
       /\ outcome (calculate_daylight iso_parse Spec.sha_deg Spec.daylight_hours
                     (mkArgs None (Some (Scalar 34%R)) None
                             (Some (TimeScalar (TStr "2025-06-21"))) None))
          = Ok (Scalar h1)
       /\ outcome (calculate_daylight iso_parse Spec.sha_deg Spec.daylight_hours
                     (mkArgs None (Some (Scalar 34%R)) None
                             (Some (TimeScalar (TStr "2025-12-21"))) None))
          = Ok (Scalar h2).
Proof.
  assert (H1 : parses_to iso_parse "2025-06-21" 2025 6 21).
  { exists (mkdatetime 2025 6 21 0 0 0). repeat split. }
  assert (H2 : parses_to iso_parse "2025-12-21" 2025 12 21).
  { exists (mkdatetime 2025 12 21 0 0 0). repeat split. }
  split; [exact H1|]. split; [exact H2|].
  apply (vectorized_matches_scalar_calls iso_parse 34 H1 H2).
Defined.

(** * Further behaviour of the resolver *)

Lemma parsed_strings_app {num} (t u : list (event num)) :
  parsed_strings (t ++ u) = parsed_strings t ++ parsed_strings u.
Proof.
  induction t as [|ev t IH]; simpl; [reflexivity|].
  destruct ev; simpl; rewrite ?IH; reflexivity.
Qed.

Section ResolverBehaviour.

Context {num : Type}.
Variable parse : string -> result datetime.
Variable engine : option (pyobj Z) -> option (pyobj num) -> result (pyobj num).
Variable converter : pyobj num -> result (pyobj num).

Local Notation "'run' a" := (calculate_daylight parse engine converter a)
  (at level 10, a at level 9, only parsing).

Lemma lat_events_parsed_strings (a : args num) :
  parsed_strings (lat_events a) = [].
Proof.
  unfold lat_events. destruct (lat a); [reflexivity|].
  destruct (geometry a); reflexivity.
Qed.

(** The comprehension as a whole: a prefix that parses, then either the
    end of the list or the first element the parser refuses. *)
Lemma mapM_to_doy_cons (v : timeval) (vs : list timeval) :
  mapM (@to_doy num parse) (v :: vs) =
  match to_doy parse v with
  | (t, Ok n) =>
      match mapM (to_doy parse) vs with
      | (t', Ok ns) => (t ++ t', Ok (n :: ns))
      | (t', Raise e) => (t ++ t', Raise e)
      end
  | (t, Raise e) => (t, Raise e)
  end.
Proof.
  cbn [mapM]. destruct (to_doy parse v) as [t [n|e]]; [|reflexivity].
  unfold bind at 1.
  destruct (mapM (to_doy parse) vs) as [t' [ns|e]]; [|reflexivity].
  unfold bind, ret. rewrite app_nil_r. reflexivity.
Qed.

Lemma mapM_to_doy_error_in (vs : list timeval) (e : exn) :
  outcome (mapM (@to_doy num parse) vs) = Raise e ->
  exists s, In (TStr s) vs /\ parse s = Raise e.
Proof.
  induction vs as [|v vs IH]; [discriminate|].
  rewrite mapM_to_doy_cons. rewrite (to_doy_run parse v).
  destruct v as [s|d].
  - destruct (parse s) as [dt|e'] eqn:Hs.
    + destruct (mapM (to_doy parse) vs) as [t' [ns|e']];
        cbn [outcome snd] in *; [discriminate|].
      intros H. destruct (IH H) as (s' & Hin & Hs').
      exists s'. split; [right; exact Hin|exact Hs'].
    + cbn [outcome snd]. intros [= ->]. exists s. split; [left; reflexivity|exact Hs].
  - destruct (mapM (to_doy parse) vs) as [t' [ns|e']];
      cbn [outcome snd] in *; [discriminate|].
    intros H. destruct (IH H) as (s' & Hin & Hs').
    exists s'. split; [right; exact Hin|exact Hs'].
Qed.

Lemma mapM_to_doy_parsed (vs : list timeval) :
  exists rest,
    strings_of vs = parsed_strings (trace (mapM (@to_doy num parse) vs)) ++ rest
    /\ (forall ns, outcome (mapM (@to_doy num parse) vs) = Ok ns -> rest = []).
Proof.
  induction vs as [|v vs (rest & IH1 & IH2)].
  - exists []. split; reflexivity.
  - rewrite mapM_to_doy_cons. rewrite (to_doy_run parse v).
    destruct v as [s|d]; cbn [strings_of].
    + destruct (parse s) as [dt|e'].
      * destruct (mapM (to_doy parse) vs) as [t' [ns|e']];
          cbn [trace outcome fst snd] in *; exists rest;
          (split; [simpl; rewrite IH1; reflexivity|]).
        -- intros ns' _. apply (IH2 ns). reflexivity.
        -- discriminate.
      * exists (strings_of vs). split; [reflexivity|discriminate].
    + destruct (mapM (to_doy parse) vs) as [t' [ns|e']];
        cbn [trace outcome fst snd] in *; exists rest;
        (split; [simpl; exact IH1|]).
      * intros ns' _. apply (IH2 ns). reflexivity.
      * discriminate.
Qed.

Lemma mapM_to_doy_stops (pre post : list timeval) (v : timeval) (e : exn) :
  Forall (fun v => exists n, doy_of parse v = Ok n) pre ->
  doy_of parse v = Raise e ->
  mapM (@to_doy num parse) (pre ++ v :: post)
  = (trace (mapM (@to_doy num parse) pre) ++ trace (@to_doy num parse v), Raise e).
Proof.
  intros Hpre Hv. induction Hpre as [|p pre [n Hp] Hpre IH].
  - cbn [app]. rewrite mapM_to_doy_cons.
    rewrite <- (to_doy_outcome (num:=num)) in Hv.
    destruct (to_doy parse v) as [t r]; cbn [outcome snd] in Hv; subst r.
    reflexivity.
  - cbn [app]. rewrite !mapM_to_doy_cons, IH.
    rewrite <- (to_doy_outcome (num:=num)) in Hp.
    destruct (to_doy parse p) as [t r]; cbn [outcome snd] in Hp; subst r.
    pose proof (mapM_to_doy_ok (num:=num) parse pre) as Hok.
    destruct (mapM (to_doy parse) pre) as [t' [ns|e']];
      cbn [trace fst]; rewrite app_assoc; reflexivity.
Qed.

(** What lines 66-76 can leave in [day_of_year]: the supplied value, a
    scalar or an array. *)
Lemma resolve_day_of_year_shape (a : args num) (d : option (pyobj Z)) :
  outcome (resolve_day_of_year parse a) = Ok d ->
  d = day_of_year a
  \/ (exists n, d = Some (Scalar n))
  \/ (exists ns, d = Some (Ndarray ns)).
Proof.
  unfold resolve_day_of_year.
  destruct (day_of_year a) as [d0|]; [intros [= <-]; left; reflexivity|].
  destruct (time_UTC a) as [[v|vs|vs]|].
  - destruct (to_doy parse v) as [t [n|e]]; [|discriminate].
    cbn. intros [= <-]. right; left. exists n. reflexivity.
  - destruct (mapM (to_doy parse) vs) as [t [ns|e]]; [|discriminate].
    cbn. intros [= <-]. right; right. exists ns. reflexivity.
  - destruct (mapM (to_doy parse) vs) as [t [ns|e]]; [|discriminate].
    cbn. intros [= <-]. right; right. exists ns. reflexivity.
  - intros [= <-]. left. reflexivity.
Qed.

End ResolverBehaviour.

Section ResolverRuns.

Context {num : Type}.
Variable parse : string -> result datetime.
Variable engine : option (pyobj Z) -> option (pyobj num) -> result (pyobj num).
Variable converter : pyobj num -> result (pyobj num).

Local Notation "'run' a" := (calculate_daylight parse engine converter a)
  (at level 10, a at level 9, only parsing).

Lemma normalized_not_plain_list {A} (d : option (pyobj A)) :
  is_plain_list (normalized d) = false.
Proof. destruct d as [[ | | | ]|]; reflexivity. Qed.

Lemma resolve_day_of_year_error_in (a : args num) (e : exn) :
  outcome (resolve_day_of_year parse a) = Raise e ->
  day_of_year a = None
  /\ exists t s, time_UTC a = Some t
                 /\ In (TStr s) (time_elements t) /\ parse s = Raise e.
Proof.
  unfold resolve_day_of_year.
  destruct (day_of_year a); [discriminate|].
  destruct (time_UTC a) as [[v|vs|vs]|]; try discriminate.
  - rewrite (to_doy_run parse v). intros H. split; [reflexivity|].
    exists (TimeScalar v). destruct v as [s|d]; [|discriminate].
    exists s. destruct (parse s) as [dt|e'] eqn:Hs; [discriminate|].
    cbn in H. injection H as ->.
    split; [reflexivity|]. split; [left; reflexivity|reflexivity].
  - intros H. split; [reflexivity|]. exists (TimeList vs).
    destruct (mapM_to_doy_error_in (num:=num) parse vs e) as (s & Hin & Hs).
    + destruct (mapM (to_doy parse) vs) as [t [n|e']];
        cbn [bind outcome snd] in H |- *; [discriminate|congruence].
    + exists s. split; [reflexivity|]. split; assumption.
  - intros H. split; [reflexivity|]. exists (TimeNdarray vs).
    destruct (mapM_to_doy_error_in (num:=num) parse vs e) as (s & Hin & Hs).
    + destruct (mapM (to_doy parse) vs) as [t [n|e']];
        cbn [bind outcome snd] in H |- *; [discriminate|congruence].
    + exists s. split; [reflexivity|]. split; assumption.
Qed.

Lemma parsed_strings_absent_SHA (a : args num) :
  SHA_deg a = None ->
  parsed_strings (trace (run a))
  = parsed_strings (trace (resolve_day_of_year parse a)).
Proof.
  intros HS. rewrite (calculate_daylight_absent_SHA parse engine converter a HS).
  destruct (resolve_day_of_year parse a) as [tp [d|e]]; cbn [trace fst].
  - destruct (engine (normalized d) (resolved_lat a)); cbn [trace fst];
      rewrite !parsed_strings_app, lat_events_parsed_strings; simpl;
      apply app_nil_r.
  - rewrite parsed_strings_app, lat_events_parsed_strings. reflexivity.
Qed.

Lemma resolve_day_of_year_parsed (a : args num) (t : time_arg) :
  day_of_year a = None -> time_UTC a = Some t ->
  exists rest,
    strings_of (time_elements t)
    = parsed_strings (trace (resolve_day_of_year parse a)) ++ rest
    /\ (forall d, outcome (resolve_day_of_year parse a) = Ok d -> rest = []).
Proof.
  unfold resolve_day_of_year. intros -> ->.
  assert (Hseq : forall vs,
    exists rest,
      strings_of vs
      = parsed_strings
          (trace (ds <- mapM (@to_doy num parse) vs ;; ret (Some (Ndarray ds))))
        ++ rest
      /\ (forall d,
            outcome (ds <- mapM (@to_doy num parse) vs ;; ret (Some (Ndarray ds)))
            = Ok d -> rest = [])).
  { intros vs. destruct (mapM_to_doy_parsed (num:=num) parse vs) as (rest & H1 & H2).
    exists rest.
    destruct (mapM (to_doy parse) vs) as [tp [ns|e]]; cbn [trace outcome fst snd] in *.
    - unfold bind, ret. cbn [fst snd]. rewrite app_nil_r.
      split; [exact H1|]. intros _ _. apply (H2 ns). reflexivity.
    - split; [exact H1|]. discriminate. }
  destruct t as [v|vs|vs]; cbn [time_elements]; try apply Hseq.
  rewrite (to_doy_run parse v). destruct v as [s|d]; cbn [strings_of].
  - destruct (parse s) as [dt|e].
    + exists []. split; reflexivity.
    + exists []. split; [reflexivity|discriminate].
  - exists []. split; reflexivity.
Qed.

Lemma Forall2_datetimes (ds : list datetime) :
  Forall2 (fun v n => doy_of parse v = Ok n) (map TDatetime ds) (map dayofyear ds).
Proof. induction ds; simpl; constructor; [reflexivity|assumption]. Qed.

Lemma strings_of_datetimes (ds : list datetime) : strings_of (map TDatetime ds) = [].
Proof. induction ds; simpl; assumption || reflexivity. Qed.


(** X1: for a [time_UTC] that is a string, a datetime object, or a flat
    list or one-dimensional array of strings and datetime objects (the
    values [time_arg] holds, on which neither the iteration of line 74
    nor [pd.Timestamp] and [int] of line 70 raise), and a geometry whose
    [lat] attribute reads, an error of the call is an error of a
    collaborator: of the parser on a string of [time_UTC] (which happens
    only with [SHA_deg] and [day_of_year] absent), of the engine on a
    day-of-year that is not a plain list and the resolved latitude, or of
    the converter. *)
Theorem errors_come_from_collaborators (a : args num) (e : exn) :
  outcome (run a) = Raise e ->
  (SHA_deg a = None /\ day_of_year a = None
   /\ exists t s, time_UTC a = Some t
                  /\ In (TStr s) (time_elements t) /\ parse s = Raise e)
  \/ (SHA_deg a = None
      /\ exists d, is_plain_list d = false
                   /\ engine d (resolved_lat a) = Raise e)
  \/ (exists x, converter x = Raise e).
Proof.
  destruct (SHA_deg a) as [x|] eqn:HS.
  - rewrite (calculate_daylight_supplied_SHA parse engine converter a x HS).
    intros H. right; right. exists x. exact H.
  - rewrite (outcome_absent_SHA parse engine converter a HS).
    destruct (outcome (resolve_day_of_year parse a)) as [d|e'] eqn:Hr.
    + destruct (engine (normalized d) (resolved_lat a)) as [s|e'] eqn:He.
      * intros H. right; right. exists s. exact H.
      * intros [= ->]. right; left. split; [reflexivity|].
        exists (normalized d). split; [apply normalized_not_plain_list|exact He].
    + intros [= ->]. left. split; [reflexivity|].
      apply resolve_day_of_year_error_in. exact Hr.
Qed.

(** X2: whatever the arguments, no engine call of a run carries a plain
    Python list as its day-of-year. *)
Theorem engine_never_receives_plain_list (a : args num) :
  forallb (fun c => negb (is_plain_list (fst c))) (engine_calls (trace (run a)))
  = true.
Proof.
  destruct (SHA_deg a) as [x|] eqn:HS.
  - rewrite (calculate_daylight_supplied_SHA parse engine converter a x HS).
    reflexivity.
  - rewrite (engine_calls_absent_SHA parse engine converter a HS).
    destruct (outcome (resolve_day_of_year parse a)) as [d|e]; [|reflexivity].
    cbn [forallb fst]. rewrite normalized_not_plain_list. reflexivity.
Qed.

(** X3: the form of a sequence is irrelevant: a [day_of_year] given as
    a plain list or as the array of the same elements, and a [time_UTC]
    given as a list or as the array of the same elements, give the same
    run: same trace, same outcome. *)
Theorem sequence_form_is_irrelevant
    (l s : option (pyobj num)) (g : option (SpatialGeometry num)) :
  (forall (xs : list Z) (t : option time_arg),
     run (mkArgs (Some (PyList xs)) l s t g)
     = run (mkArgs (Some (Ndarray xs)) l s t g))
  /\ (forall (d : option (pyobj Z)) (ts : list timeval),
        run (mkArgs d l s (Some (TimeList ts)) g)
        = run (mkArgs d l s (Some (TimeNdarray ts)) g)).
Proof.
  split.
  - intros xs t. destruct s as [x|]; [reflexivity|].
    rewrite !calculate_daylight_absent_SHA by reflexivity. reflexivity.
  - intros d ts. destruct s as [x|]; [reflexivity|].
    rewrite !calculate_daylight_absent_SHA by reflexivity.
    destruct d; reflexivity.
Qed.

(** X4: with [SHA_deg] and [lat] absent, passing a geometry is passing
    its latitude: the run is the read of [geometry.lat] followed by the
    run of the call with [lat=geometry.lat], and the outcome is the same,
    whatever geometry that second call is given. *)
Theorem geometry_same_as_its_latitude
    (d : option (pyobj Z)) (t : option time_arg)
    (g : SpatialGeometry num) (g' : option (SpatialGeometry num)) :
  run (mkArgs d None None t (Some g))
  = (GetLat g :: trace (run (mkArgs d (Some (geom_lat g)) None t g')),
     outcome (run (mkArgs d (Some (geom_lat g)) None t g'))).
Proof.
  rewrite !calculate_daylight_absent_SHA by reflexivity.
  assert (Hr : resolve_day_of_year parse (mkArgs d None None t (Some g))
               = resolve_day_of_year parse (mkArgs d (Some (geom_lat g)) None t g'))
    by reflexivity.
  rewrite Hr.
  destruct (resolve_day_of_year parse (mkArgs d (Some (geom_lat g)) None t g'))
    as [tp [dd|e]]; [|reflexivity].
  unfold resolved_lat, lat_events. cbn [lat geometry].
  destruct (engine (normalized dd) (Some (geom_lat g))); reflexivity.
Qed.

(** X5: computing in one call or in two is the same: when the engine
    answers [s] on the resolved inputs, the call returns what the call
    with [SHA_deg=s] returns, whatever else that second call is given. *)
Theorem engine_result_as_SHA_deg
    (a : args num) (d : option (pyobj Z)) (s : pyobj num) :
  SHA_deg a = None ->
  outcome (resolve_day_of_year parse a) = Ok d ->
  engine (normalized d) (resolved_lat a) = Ok s ->
  forall d' l' t' g',
    outcome (run a) = outcome (run (mkArgs d' l' (Some s) t' g')).
Proof.
  intros HS Hr He d' l' t' g'.
  rewrite (outcome_absent_SHA parse engine converter a HS), Hr, He.
  reflexivity.
Qed.

(** X6: an error of the engine is the outcome of the call, and the
    converter is not called. *)
Theorem engine_error_propagates
    (a : args num) (d : option (pyobj Z)) (e : exn) :
  SHA_deg a = None ->
  outcome (resolve_day_of_year parse a) = Ok d ->
  engine (normalized d) (resolved_lat a) = Raise e ->
  outcome (run a) = Raise e /\ filter is_converter (trace (run a)) = [].
Proof.
  intros HS Hr He. split.
  - rewrite (outcome_absent_SHA parse engine converter a HS), Hr, He. reflexivity.
  - rewrite (calculate_daylight_absent_SHA parse engine converter a HS).
    pose proof (resolve_day_of_year_trace parse a) as Hp.
    destruct (resolve_day_of_year parse a) as [tp [d0|e0]];
      cbn [trace outcome fst snd] in *; [|discriminate].
    injection Hr as ->. rewrite He. cbn [trace fst].
    rewrite !filter_app, lat_events_filter by reflexivity.
    rewrite (parse_only_filter is_converter tp); [reflexivity| |exact Hp].
    intros [ | | | | | ]; simpl; congruence.
Qed.

(** X7: the comprehension over [time_UTC] stops at the first string the
    parser refuses: what follows it in the list has no effect on the run,
    whose last event is that parser call, after exactly the strings before
    it were parsed. *)
Theorem comprehension_stops_at_first_error
    (l : option (pyobj num)) (g : option (SpatialGeometry num))
    (pre post post' : list timeval) (s : string) (e : exn) :
  Forall (fun v => exists n, doy_of parse v = Ok n) pre ->
  parse s = Raise e ->
  run (mkArgs None l None (Some (TimeList (pre ++ TStr s :: post))) g)
  = run (mkArgs None l None (Some (TimeList (pre ++ TStr s :: post'))) g)
  /\ exists tp,
       trace (run (mkArgs None l None (Some (TimeList (pre ++ TStr s :: post))) g))
       = tp ++ [Parse s]
       /\ parsed_strings tp = strings_of pre.
Proof.
  intros Hpre Hs.
  assert (Hd : doy_of parse (TStr s) = Raise e) by (simpl; rewrite Hs; reflexivity).
  assert (Hrun : forall post0,
    run (mkArgs None l None (Some (TimeList (pre ++ TStr s :: post0))) g)
    = (lat_events (mkArgs None l None (Some (TimeList (pre ++ TStr s :: post0))) g)
         ++ trace (mapM (@to_doy num parse) pre) ++ [Parse s],
       Raise e)).
  { intros post0. rewrite calculate_daylight_absent_SHA by reflexivity.
    unfold resolve_day_of_year. cbn [day_of_year time_UTC].
    rewrite (mapM_to_doy_stops parse pre post0 (TStr s) e Hpre Hd).
    rewrite (to_doy_run parse (TStr s)), Hs. reflexivity. }
  split.
  - rewrite !Hrun. reflexivity.
  - rewrite Hrun.
    exists (lat_events (mkArgs None l None (Some (TimeList (pre ++ TStr s :: post))) g)
              ++ trace (mapM (@to_doy num parse) pre)).
    split; [rewrite <- app_assoc; reflexivity|].
    rewrite parsed_strings_app, lat_events_parsed_strings.
    destruct (mapM_to_doy_parsed (num:=num) parse pre) as (rest & H1 & H2).
    assert (Hok : exists ns, outcome (mapM (@to_doy num parse) pre) = Ok ns).
    { clear - Hpre. induction Hpre as [|p pre [n Hp] _ [ns IH]].
      - exists []. reflexivity.
      - exists (n :: ns). apply mapM_to_doy_ok.
        constructor; [exact Hp|].
        clear - IH. revert ns IH. induction pre as [|q pre IHpre]; intros ns IH.
        + cbn in IH. injection IH as <-. constructor.
        + rewrite mapM_to_doy_cons in IH.
          pose proof (to_doy_outcome (num:=num) parse q) as Hq.
          destruct (to_doy parse q) as [t [m|e]]; cbn [outcome snd] in *;
            [|discriminate].
          destruct (mapM (to_doy parse) pre) as [t' [ms|e]];
            cbn [outcome snd] in *; [|discriminate].
          injection IH as <-. constructor; [symmetry; exact Hq|].
          apply IHpre. reflexivity. }
    destruct Hok as [ns Hok]. rewrite (H2 ns Hok), app_nil_r in H1.
    simpl. symmetry. exact H1.
Qed.

(** X8: with [SHA_deg] and [day_of_year] absent the parser is handed
    strings of [time_UTC] only, each at most once and in the order of
    [time_UTC]; when the run reaches the engine, every string was parsed
    exactly once. *)
Theorem strings_parsed_once_in_order
    (l : option (pyobj num)) (g : option (SpatialGeometry num)) (t : time_arg) :
  (exists rest,
     strings_of (time_elements t)
     = parsed_strings (trace (run (mkArgs None l None (Some t) g))) ++ rest)
  /\ (engine_calls (trace (run (mkArgs None l None (Some t) g))) <> [] ->
      parsed_strings (trace (run (mkArgs None l None (Some t) g)))
      = strings_of (time_elements t)).
Proof.
  set (a := mkArgs None l None (Some t) g).
  destruct (resolve_day_of_year_parsed a t eq_refl eq_refl) as (rest & H1 & H2).
  rewrite (parsed_strings_absent_SHA a eq_refl).
  split; [exists rest; exact H1|].
  rewrite (engine_calls_absent_SHA parse engine converter a eq_refl).
  destruct (outcome (resolve_day_of_year parse a)) as [d|e]; [|congruence].
  intros _. rewrite (H2 d eq_refl), app_nil_r in H1. symmetry. exact H1.
Qed.

(** X9: a [time_UTC] made of datetime objects never reaches the parser
    and cannot raise before the engine: the engine is called once, on the
    array of their ordinal days (on the scalar for a single datetime). *)
Theorem datetimes_never_reach_parser
    (l : option (pyobj num)) (g : option (SpatialGeometry num)) :
  (forall ds : list datetime,
     parsed_strings
       (trace (run (mkArgs None l None (Some (TimeList (map TDatetime ds))) g))) = []
     /\ engine_calls
          (trace (run (mkArgs None l None (Some (TimeList (map TDatetime ds))) g)))
        = [(Some (Ndarray (map dayofyear ds)), resolved_lat (mkArgs None l None None g))])
  /\ (forall dt : datetime,
        parsed_strings
          (trace (run (mkArgs None l None (Some (TimeScalar (TDatetime dt))) g))) = []
        /\ engine_calls
             (trace (run (mkArgs None l None (Some (TimeScalar (TDatetime dt))) g)))
           = [(Some (Scalar (dayofyear dt)), resolved_lat (mkArgs None l None None g))]).
Proof.
  split.
  - intros ds.
    set (a := mkArgs None l None (Some (TimeList (map TDatetime ds))) g).
    split.
    + destruct (resolve_day_of_year_parsed a _ eq_refl eq_refl) as (rest & H1 & _).
      rewrite (parsed_strings_absent_SHA a eq_refl).
      cbn [time_elements] in H1. rewrite strings_of_datetimes in H1.
      symmetry in H1. apply app_eq_nil in H1. apply H1.
    + rewrite (engine_calls_absent_SHA parse engine converter a eq_refl).
      rewrite (resolve_day_of_year_sequence parse a (map TDatetime ds)
                 (map dayofyear ds) eq_refl (or_introl eq_refl)
                 (Forall2_datetimes ds)).
      reflexivity.
  - intros dt.
    set (a := mkArgs None l None (Some (TimeScalar (TDatetime dt))) g).
    split.
    + rewrite (parsed_strings_absent_SHA a eq_refl). reflexivity.
    + rewrite (engine_calls_absent_SHA parse engine converter a eq_refl).
      reflexivity.
Qed.

(** X10: the call sees [time_UTC] only through the ordinal days of its
    elements: two sequences (list or array) whose elements give the same
    days, such as a string and the datetime it parses to, or two times
    of the same date, give the same engine call and the same outcome. *)
Theorem same_days_same_outcome
    (l : option (pyobj num)) (g : option (SpatialGeometry num))
    (vs ws : list timeval) (ns : list Z) :
  Forall2 (fun v n => doy_of parse v = Ok n) vs ns ->
  Forall2 (fun w n => doy_of parse w = Ok n) ws ns ->
  outcome (run (mkArgs None l None (Some (TimeList vs)) g))
  = outcome (run (mkArgs None l None (Some (TimeNdarray ws)) g))
  /\ engine_calls (trace (run (mkArgs None l None (Some (TimeList vs)) g)))
     = engine_calls (trace (run (mkArgs None l None (Some (TimeNdarray ws)) g))).
Proof.
  intros Hv Hw.
  pose proof (resolve_day_of_year_sequence parse
                (mkArgs None l None (Some (TimeList vs)) g) vs ns
                eq_refl (or_introl eq_refl) Hv) as H1.
  pose proof (resolve_day_of_year_sequence parse
                (mkArgs None l None (Some (TimeNdarray ws)) g) ws ns
                eq_refl (or_intror eq_refl) Hw) as H2.
  split.
  - rewrite !outcome_absent_SHA by reflexivity. rewrite H1, H2. reflexivity.
  - rewrite !engine_calls_absent_SHA by reflexivity. rewrite H1, H2. reflexivity.
Qed.

(** X11: every run goes through its phases in order: at most one read
    of [geometry.lat], then parser and timestamp calls only, then the
    calls: none (the parser raised), the engine alone (it raised), the
    engine and the converter on the engine's answer, or the converter
    alone on the supplied [SHA_deg]. *)
Theorem run_in_phases (a : args num) :
  exists reads parses calls,
    trace (run a) = reads ++ parses ++ calls
    /\ forallb is_geometry_read reads = true
    /\ (List.length reads <= 1)%nat
    /\ forallb is_parse parses = true
    /\ (calls = []
        \/ (exists d l e, calls = [CallEngine d l] /\ engine d l = Raise e)
        \/ (exists d l s, calls = [CallEngine d l; CallConverter s]
                          /\ engine d l = Ok s)
        \/ (exists s, calls = [CallConverter s] /\ SHA_deg a = Some s)).
Proof.
  destruct (SHA_deg a) as [x|] eqn:HS.
  - exists [], [], [CallConverter x].
    rewrite (calculate_daylight_supplied_SHA parse engine converter a x HS).
    split; [reflexivity|]. split; [reflexivity|].
    split; [simpl; lia|]. split; [reflexivity|].
    right; right; right. exists x. split; reflexivity.
  - rewrite (calculate_daylight_absent_SHA parse engine converter a HS).
    pose proof (resolve_day_of_year_trace parse a) as Hp.
    assert (Hl : forallb is_geometry_read (lat_events a) = true
                 /\ (List.length (lat_events a) <= 1)%nat).
    { unfold lat_events. destruct (lat a); [simpl; split; [reflexivity|lia]|].
      destruct (geometry a); simpl; split; (reflexivity || lia). }
    destruct Hl as [Hl1 Hl2].
    destruct (resolve_day_of_year parse a) as [tp [d|e]]; cbn [trace fst] in *.
    + destruct (engine (normalized d) (resolved_lat a)) as [s|e] eqn:He;
        cbn [trace fst].
      * exists (lat_events a), tp,
          [CallEngine (normalized d) (resolved_lat a); CallConverter s].
        repeat split; try assumption.
        right; right; left.
        exists (normalized d), (resolved_lat a), s. split; [reflexivity|exact He].
      * exists (lat_events a), tp, [CallEngine (normalized d) (resolved_lat a)].
        repeat split; try assumption.
        right; left.
        exists (normalized d), (resolved_lat a), e. split; [reflexivity|exact He].
    + exists (lat_events a), tp, [].
      rewrite app_nil_r. repeat split; try assumption. left. reflexivity.
Qed.

(** X12: [to_doy] of a datetime, or of a string the parser reads as
    that datetime, is the ordinal day of its date, and for a date a
    datetime can hold that day lies between 1 and 365, or 366 in a leap
    year. *)
Theorem to_doy_within_year (v : timeval) (dt : datetime) :
  v = TDatetime dt \/ (exists s, v = TStr s /\ parse s = Ok dt) ->
  valid_date dt = true ->
  outcome (@to_doy num parse v) = Ok (dayofyear dt)
  /\ 1 <= dayofyear dt <= (if is_leap (year dt) then 366 else 365).
Proof.
  intros Hv Hd. split.
  - rewrite to_doy_outcome.
    destruct Hv as [-> | (s & -> & Hs)]; simpl; [reflexivity|].
    rewrite Hs. reflexivity.
  - clear Hv. destruct dt as [y m d h mi se].
    unfold valid_date, dayofyear, days_in_month in *.
    cbn [year month day] in *.
    apply andb_prop in Hd. destruct Hd as [Hd H4].
    apply andb_prop in Hd. destruct Hd as [Hd H3].
    apply andb_prop in Hd. destruct Hd as [H1 H2].
    apply Z.leb_le in H1, H2, H3.
    assert (Hm : m = 1 \/ m = 2 \/ m = 3 \/ m = 4 \/ m = 5 \/ m = 6 \/ m = 7
                 \/ m = 8 \/ m = 9 \/ m = 10 \/ m = 11 \/ m = 12) by lia.
    revert H4. destruct (is_leap y); intros H4;
      repeat (destruct Hm as [-> | Hm]); try subst m;
      match goal with
      | |- context [days_before_month ?k] =>
          let n := eval vm_compute in (days_before_month k) in
          change (days_before_month k) with n
      end;
      match goal with
      | |- context [2 <? ?k] =>
          let b := eval vm_compute in (2 <? k) in change (2 <? k) with b
      end;
      cbn [andb]; cbn in H4; apply Z.leb_le in H4; lia.
Qed.

(** X13: a value the call returns is a value the converter returned:
    the run ends with its only converter call, and the outcome is the
    converter's answer on it. *)
Theorem returned_value_is_converter_output (a : args num) (x : pyobj num) :
  outcome (run a) = Ok x ->
  exists tp s,
    trace (run a) = tp ++ [CallConverter s]
    /\ converter s = Ok x
    /\ filter is_converter tp = [].
Proof.
  destruct (SHA_deg a) as [s|] eqn:HS.
  - rewrite (calculate_daylight_supplied_SHA parse engine converter a s HS).
    intros H. exists [], s. repeat split. exact H.
  - rewrite (calculate_daylight_absent_SHA parse engine converter a HS).
    pose proof (resolve_day_of_year_trace parse a) as Hp.
    destruct (resolve_day_of_year parse a) as [tp [d|e]];
      cbn [trace outcome fst snd] in *; [|discriminate].
    destruct (engine (normalized d) (resolved_lat a)) as [s|e];
      cbn [trace outcome fst snd]; [|discriminate].
    intros H.
    exists (lat_events a ++ tp ++ [CallEngine (normalized d) (resolved_lat a)]), s.
    split; [rewrite <- !app_assoc; reflexivity|]. split; [exact H|].
    rewrite !filter_app, lat_events_filter by reflexivity.
    rewrite (parse_only_filter is_converter tp); [reflexivity| |exact Hp].
    intros [ | | | | | ]; simpl; congruence.
Qed.

End ResolverRuns.

(** ** Instances of the further properties *)

Lemma errors_come_from_collaborators_witness :
  let a := mkArgs None (Some (Scalar 34%R)) None
                  (Some (TimeList [TStr "2025-06-21"; TStr "21 Juin"])) None in
  outcome (calculate_daylight iso_parse Spec.sha_deg Spec.daylight_hours a)
  = Raise UnparsableTimestamp
  /\ ((SHA_deg a = None /\ day_of_year a = None
       /\ exists t s, time_UTC a = Some t
                      /\ In (TStr s) (time_elements t)
                      /\ iso_parse s = Raise UnparsableTimestamp)
      \/ (SHA_deg a = None
          /\ exists d, is_plain_list d = false
                       /\ Spec.sha_deg d (resolved_lat a) = Raise UnparsableTimestamp)
      \/ (exists x, Spec.daylight_hours x = Raise UnparsableTimestamp)).
Proof.
  cbv zeta.
  assert (H : outcome (calculate_daylight iso_parse Spec.sha_deg Spec.daylight_hours
                         (mkArgs None (Some (Scalar 34%R)) None
                            (Some (TimeList [TStr "2025-06-21"; TStr "21 Juin"])) None))
              = Raise UnparsableTimestamp) by reflexivity.
  split; [exact H|].
  exact (errors_come_from_collaborators iso_parse Spec.sha_deg Spec.daylight_hours
           _ _ H).
Defined.

Lemma engine_result_as_SHA_deg_witness :
  let a := mkArgs (Some (Scalar 172)) (Some (Scalar 34%R)) None None None in
  let s := Scalar (Spec.sha_deg_scalar 172 34) in
  SHA_deg a = None
  /\ outcome (resolve_day_of_year iso_parse a) = Ok (Some (Scalar 172))
  /\ Spec.sha_deg (Some (Scalar 172)) (resolved_lat a) = Ok s
  /\ outcome (calculate_daylight iso_parse Spec.sha_deg Spec.daylight_hours a)
     = outcome (calculate_daylight iso_parse Spec.sha_deg Spec.daylight_hours
                  (mkArgs None None (Some s) None None)).
Proof.
  cbv zeta. split; [reflexivity|]. split; [reflexivity|]. split; [reflexivity|].
  exact (engine_result_as_SHA_deg iso_parse Spec.sha_deg Spec.daylight_hours
           (mkArgs (Some (Scalar 172)) (Some (Scalar 34%R)) None None None)
           (Some (Scalar 172)) (Scalar (Spec.sha_deg_scalar 172 34))
           eq_refl eq_refl eq_refl None None None None).
Defined.

Lemma engine_error_propagates_witness :
  let a := mkArgs None (Some (Scalar 34%R)) None None None in
  SHA_deg a = None
  /\ outcome (resolve_day_of_year iso_parse a) = Ok None
  /\ Spec.sha_deg (normalized None) (resolved_lat a) = Raise TypeError
  /\ outcome (calculate_daylight iso_parse Spec.sha_deg Spec.daylight_hours a)
     = Raise TypeError
  /\ filter is_converter
       (trace (calculate_daylight iso_parse Spec.sha_deg Spec.daylight_hours a))
     = [].
Proof.
  cbv zeta. split; [reflexivity|]. split; [reflexivity|]. split; [reflexivity|].
  exact (engine_error_propagates iso_parse Spec.sha_deg Spec.daylight_hours
           (mkArgs None (Some (Scalar 34%R)) None None None) None TypeError
           eq_refl eq_refl eq_refl).
Defined.

Lemma comprehension_stops_at_first_error_witness :
  Forall (fun v => exists n, doy_of iso_parse v = Ok n) [TStr "2025-06-21"]
  /\ iso_parse "2025-13-45" = Raise UnparsableTimestamp
  /\ calculate_daylight iso_parse Spec.sha_deg Spec.daylight_hours
       (mkArgs None (Some (Scalar 34%R)) None
          (Some (TimeList ([TStr "2025-06-21"] ++ TStr "2025-13-45"
                             :: [TStr "2025-12-21"]))) None)
     = calculate_daylight iso_parse Spec.sha_deg Spec.daylight_hours
         (mkArgs None (Some (Scalar 34%R)) None
            (Some (TimeList ([TStr "2025-06-21"] ++ TStr "2025-13-45" :: []))) None).
Proof.
  assert (H : Forall (fun v => exists n, doy_of iso_parse v = Ok n)
                [TStr "2025-06-21"]).
  { constructor; [exists 172; reflexivity|constructor]. }
  split; [exact H|]. split; [reflexivity|].
  exact (proj1 (comprehension_stops_at_first_error
                  iso_parse Spec.sha_deg Spec.daylight_hours
                  (Some (Scalar 34%R)) None [TStr "2025-06-21"]
                  [TStr "2025-12-21"] [] "2025-13-45" UnparsableTimestamp
                  H eq_refl)).
Defined.

Lemma strings_parsed_once_in_order_witness :
  let t := TimeList [TStr "2025-06-21";
                     TDatetime (mkdatetime 2025 9 1 12 0 0);
                     TStr "2025-12-21"] in
  let a := mkArgs None (Some (Scalar 34%R)) None (Some t) None in
  engine_calls (trace (calculate_daylight iso_parse Spec.sha_deg
                         Spec.daylight_hours a)) <> []
  /\ parsed_strings (trace (calculate_daylight iso_parse Spec.sha_deg
                              Spec.daylight_hours a))
     = ["2025-06-21"; "2025-12-21"]%string.
Proof.
  cbv zeta.
  assert (H : engine_calls
                (trace (calculate_daylight iso_parse Spec.sha_deg Spec.daylight_hours
                          (mkArgs None (Some (Scalar 34%R)) None
                             (Some (TimeList [TStr "2025-06-21";
                                              TDatetime (mkdatetime 2025 9 1 12 0 0);
                                              TStr "2025-12-21"])) None)))
              <> []).
  { rewrite engine_calls_absent_SHA by reflexivity. discriminate. }
  split; [exact H|].
  exact (proj2 (strings_parsed_once_in_order
                  iso_parse Spec.sha_deg Spec.daylight_hours
                  (Some (Scalar 34%R)) None
                  (TimeList [TStr "2025-06-21";
                             TDatetime (mkdatetime 2025 9 1 12 0 0);
                             TStr "2025-12-21"])) H).
Defined.

Lemma same_days_same_outcome_witness :
  Forall2 (fun v n => doy_of iso_parse v = Ok n) [TStr "2025-06-21"] [172]
  /\ Forall2 (fun w n => doy_of iso_parse w = Ok n)
       [TDatetime (mkdatetime 2025 6 21 13 30 0)] [172]
  /\ outcome (calculate_daylight iso_parse Spec.sha_deg Spec.daylight_hours
                (mkArgs None (Some (Scalar 34%R)) None
                   (Some (TimeList [TStr "2025-06-21"])) None))
     = outcome (calculate_daylight iso_parse Spec.sha_deg Spec.daylight_hours
                  (mkArgs None (Some (Scalar 34%R)) None
                     (Some (TimeNdarray [TDatetime (mkdatetime 2025 6 21 13 30 0)]))
                     None)).
Proof.
  assert (H1 : Forall2 (fun v n => doy_of iso_parse v = Ok n)
                 [TStr "2025-06-21"] [172]) by (repeat constructor).
  assert (H2 : Forall2 (fun w n => doy_of iso_parse w = Ok n)
                 [TDatetime (mkdatetime 2025 6 21 13 30 0)] [172])
    by (repeat constructor).
  split; [exact H1|]. split; [exact H2|].
  exact (proj1 (same_days_same_outcome iso_parse Spec.sha_deg Spec.daylight_hours
                  (Some (Scalar 34%R)) None _ _ _ H1 H2)).
Defined.

Lemma to_doy_within_year_witness :
  iso_parse "2024-12-31" = Ok (mkdatetime 2024 12 31 0 0 0)
  /\ valid_date (mkdatetime 2024 12 31 0 0 0) = true
  /\ outcome (@to_doy R iso_parse (TStr "2024-12-31")) = Ok 366
  /\ 1 <= 366 <= 366.
Proof.
  split; [reflexivity|]. split; [reflexivity|].
  exact (to_doy_within_year (num:=R) iso_parse
           (TStr "2024-12-31") (mkdatetime 2024 12 31 0 0 0)
           (or_intror (ex_intro _ "2024-12-31"%string (conj eq_refl eq_refl)))
           eq_refl).
Defined.

Lemma returned_value_is_converter_output_witness :
  let a := mkArgs (Some (Scalar 172)) None None None
                  (Some (mkGeometry (Scalar 34%R))) in
  let x := Scalar (Spec.hours (Spec.sha_deg_scalar 172 34)) in
  outcome (calculate_daylight iso_parse Spec.sha_deg Spec.daylight_hours a) = Ok x
  /\ exists tp s,
       trace (calculate_daylight iso_parse Spec.sha_deg Spec.daylight_hours a)
       = tp ++ [CallConverter s]
       /\ Spec.daylight_hours s = Ok x
       /\ filter is_converter tp = [].
Proof.
  cbv zeta. split; [reflexivity|].
  exact (returned_value_is_converter_output
           iso_parse Spec.sha_deg Spec.daylight_hours
           (mkArgs (Some (Scalar 172)) None None None
                   (Some (mkGeometry (Scalar 34%R))))
           (Scalar (Spec.hours (Spec.sha_deg_scalar 172 34))) eq_refl).
Defined.

(** C8 fails for a latitude that is a container.  Against a 3-element
    array the two days do not broadcast and the call on the list raises;
    against a 2-element array days and latitudes are paired elementwise,
    so the first element of the result is one number, while the call on
    '2025-06-21' alone returns a 2-element array. *)
Lemma vectorized_fails_for_array_latitude :
  outcome (calculate_daylight iso_parse Spec.sha_deg Spec.daylight_hours
             (mkArgs None (Some (Ndarray [10; 20; 30]%R)) None
                (Some (TimeList [TStr "2025-06-21"; TStr "2025-12-21"])) None))
  = Raise ValueError
  /\ outcome (calculate_daylight iso_parse Spec.sha_deg Spec.daylight_hours
                (mkArgs None (Some (Ndarray [10; 20]%R)) None
                   (Some (TimeList [TStr "2025-06-21"; TStr "2025-12-21"])) None))
     = Ok (Ndarray [Spec.hours (Spec.sha_deg_scalar 172 10);
                    Spec.hours (Spec.sha_deg_scalar 355 20)])
  /\ outcome (calculate_daylight iso_parse Spec.sha_deg Spec.daylight_hours
                (mkArgs None (Some (Ndarray [10; 20]%R)) None
                   (Some (TimeScalar (TStr "2025-06-21"))) None))
     = Ok (Ndarray [Spec.hours (Spec.sha_deg_scalar 172 10);
                    Spec.hours (Spec.sha_deg_scalar 172 20)]).
Proof. repeat split. Qed.

